(** * Band enforcement on a Huawei LTE router: a model of [manager.py]

    The development embeds the control code of [src/manager.py]
    ([get_upload_band], [wait_for_connection], [force_band_setting] and the
    retry loop of [main]) as functions in a state-and-exception monad over an
    explicit world: the wall clock, the router's answers and the list of
    interactions performed so far.  The router, the XML parser and the log
    file are external; they appear as an environment that answers every
    interaction. *)

From Stdlib Require Import ZArith NArith List String Ascii Bool Lia DecimalString.
Import ListNotations.

Open Scope string_scope.
Open Scope list_scope.
Open Scope Z_scope.

(** ** Python exceptions *)

Module Py.

(** The exception classes that the program raises or names in a handler,
    with the part of the builtin hierarchy that relates them. *)
Inductive ExcClass : Type :=
| BaseException
| Exception
| RuntimeError
| NotImplementedError
| NameError
| UnboundLocalError
| ArithmeticError
| OverflowError.

Definition class_eqb (c d : ExcClass) : bool :=
  match c, d with
  | BaseException, BaseException
  | Exception, Exception
  | RuntimeError, RuntimeError
  | NotImplementedError, NotImplementedError
  | NameError, NameError
  | UnboundLocalError, UnboundLocalError
  | ArithmeticError, ArithmeticError
  | OverflowError, OverflowError => true
  | _, _ => false
  end.

(** Direct base class in the builtin hierarchy. *)
Definition base (c : ExcClass) : option ExcClass :=
  match c with
  | BaseException => None
  | Exception => Some BaseException
  | RuntimeError => Some Exception
  | NotImplementedError => Some RuntimeError
  | NameError => Some Exception
  | UnboundLocalError => Some NameError
  | ArithmeticError => Some Exception
  | OverflowError => Some ArithmeticError
  end.

Fixpoint subclass_upto (depth : nat) (c d : ExcClass) : bool :=
  class_eqb c d ||
  match depth with
  | O => false
  | S depth' =>
      match base c with
      | Some b => subclass_upto depth' b d
      | None => false
      end
  end.

(** [issubclass c d]: an [except d] clause catches an exception of class [c]. *)
Definition issubclass (c d : ExcClass) : bool := subclass_upto 4 c d.

(** An exception instance: its class and [str(e)]. *)
Record Exc : Type := mkExc { exc_class : ExcClass; exc_msg : string }.

(** [str(x)] for an optional string: [None] prints as the word None. *)
Definition str_opt (x : option string) : string :=
  match x with
  | Some s => s
  | None => "None"
  end.

(** [str(n)] for an integer. *)
Definition str_int (n : Z) : string := NilZero.string_of_int (Z.to_int n).

(** [x in l] for an optional string [x] and a list of strings: [None] is a
    member of no list of strings. *)
Definition contains (l : list string) (x : option string) : bool :=
  match x with
  | Some s => existsb (String.eqb s) l
  | None => false
  end.

(** [x == s] and [x != s] for an optional string [x] and a string [s]. *)
Definition eq_str (x : option string) (s : string) : bool :=
  match x with
  | Some t => String.eqb t s
  | None => false
  end.

End Py.
Import Py.

(** ** The world outside the program *)

(** A parsed XML element, as [xml.etree.ElementTree] hands it out: tag, text
    ([None] for an empty element) and child elements. *)
#[warnings="-register-all"]
Inductive Element : Type :=
| Elem (tag : string) (text : option string) (children : list Element).

Definition el_tag (e : Element) : string := let 'Elem t _ _ := e in t.
Definition el_text (e : Element) : option string := let 'Elem _ x _ := e in x.
Definition el_children (e : Element) : list Element := let 'Elem _ _ c := e in c.

(** What the program does to the outside, in order.  The first five are the
    calls on the router object; [Sleep] and [Log] are the pause and the line
    appended to the log file (with its time stamp). *)
Inductive Event : Type :=
| ReadSignal                          (* router.device.signal *)
| SetNetworkMode (mode : string)      (* router.net.set_network_mode *)
| SetDataSwitchOff                    (* router.dataswitch.set_dataswitch_off *)
| SetDataSwitchOn                     (* router.dataswitch.set_dataswitch_on *)
| SetLteBand (bands : list string)    (* router.net.set_lte_band *)
| Sleep (seconds : Z)                 (* time.sleep *)
| Log (stamp : Z) (msg : string).     (* logger *)

(** One second, in the clock's unit (microseconds, the resolution of
    [datetime]). *)
Definition second : Z := 1000000.

(** The outside answers the k-th interaction of a run.
    - [clock_lag k]: time that passed since the previous interaction when
      the k-th one is a clock read;
    - [io_lag k]: time taken when it is a router call, a log write, or the
      overshoot of a sleep;
    - [signal k]: the telemetry document (already parsed) when it is a
      telemetry read.
    The clock counts microseconds from [datetime.min].  Assumptions of the
    model: the clock never runs backwards, its readings lie in the range of
    [datetime] and more than two minutes below [datetime.max], and router
    calls, parsing and log writes do not fail. *)
Record Answers : Type := mkAnswers {
  clock_lag : nat -> N;
  io_lag : nat -> N;
  signal : nat -> Element
}.

(** An environment with a prompt clock: a clock read returns less than one
    second after the previous interaction.  The program is defined for all
    [Answers]; statements about an [Env] are about runs under this
    condition on the clock. *)
Record Env : Type := mkEnv {
  answers :> Answers;
  clock_prompt : forall k, (clock_lag answers k < 1000000)%N
}.

(** The state of a run: number of interactions so far, the clock, and the
    interactions performed, oldest first. *)
Record World : Type := mkWorld {
  steps : nat;
  now : Z;
  trace : list Event
}.

(** ** The monad of the program: state, exceptions, divergence *)

Inductive Outcome (A : Type) : Type :=
| Return (a : A)
| Raise (e : Exc)
| Diverge.
Arguments Return {A} a.
Arguments Raise {A} e.
Arguments Diverge {A}.

Definition M (A : Type) : Type := World -> Outcome A * World.

Definition ret {A} (a : A) : M A := fun w => (Return a, w).

Definition raise {A} (c : ExcClass) (msg : string) : M A :=
  fun w => (Raise (mkExc c msg), w).

Definition diverge {A} : M A := fun w => (Diverge, w).

Definition bind {A B} (m : M A) (k : A -> M B) : M B :=
  fun w =>
    match m w with
    | (Return a, w') => k a w'
    | (Raise e, w') => (Raise e, w')
    | (Diverge, w') => (Diverge, w')
    end.

Declare Scope prog_scope.
Delimit Scope prog_scope with prog.
Notation "x <- m ;; k" := (bind m (fun x => k))
  (at level 100, m at next level, right associativity) : prog_scope.
Notation "m ;; k" := (bind m (fun _ => k))
  (at level 100, right associativity) : prog_scope.
Open Scope prog_scope.

(** [try: body except c1: h1 except c2: h2 ...]: the first clause whose class
    the raised exception is an instance of handles it. *)
Fixpoint handle {A} (handlers : list (ExcClass * (Exc -> M A))) (e : Exc) : M A :=
  match handlers with
  | [] => fun w => (Raise e, w)
  | (c, h) :: rest =>
      if issubclass (exc_class e) c then h e else handle rest e
  end.

Definition try_except {A} (body : M A)
    (handlers : list (ExcClass * (Exc -> M A))) : M A :=
  fun w =>
    match body w with
    | (Raise e, w') => handle handlers e w'
    | r => r
    end.

(** Reading a local variable that may not have been assigned yet; the
    message is the one of CPython up to version 3.10. *)
Definition read_local {A} (name : string) (binding : option A) : M A :=
  match binding with
  | Some v => ret v
  | None =>
      raise UnboundLocalError
        ("local variable '" ++ name ++ "' referenced before assignment")
  end.

(** ** Primitive interactions *)

Section Program.

Variable env : Answers.

(** [datetime.now()] *)
Definition datetime_now : M Z :=
  fun w =>
    let t := now w + Z.of_N (clock_lag env (steps w)) in
    (Return t, mkWorld (S (steps w)) t (trace w)).

(** A router call or a log write: takes its time and is recorded. *)
Definition interact (e : Event) : M unit :=
  fun w =>
    (Return tt,
     mkWorld (S (steps w)) (now w + Z.of_N (io_lag env (steps w)))
             (trace w ++ [e])).

(** [time.sleep(seconds)]: at least [seconds] pass. *)
Definition sleep (seconds : Z) : M unit :=
  fun w =>
    (Return tt,
     mkWorld (S (steps w))
             (now w + seconds * second + Z.of_N (io_lag env (steps w)))
             (trace w ++ [Sleep seconds])).

(** [ET.fromstring(router.device.signal)] *)
Definition device_signal : M Element :=
  fun w =>
    (Return (signal env (steps w)),
     mkWorld (S (steps w)) (now w + Z.of_N (io_lag env (steps w)))
             (trace w ++ [ReadSignal])).

(** ** Configuration (module-level globals of [manager.py]) *)

Definition router_name : string := "default".
Definition upload_bands : list string := ["B28"].
Definition download_bands : list string := ["B28"; "B3"; "B7"].
Definition connection_timeout : Z := 20.

(** ** The program *)

(** [logger(msg)]: appends the time and [msg] to the log file. *)
Definition logger (msg : string) : M unit :=
  stamp <- datetime_now ;;
  interact (Log stamp msg).

(** [toggle_data_off_on(router)] *)
Definition toggle_data_off_on : M unit :=
  logger (router_name ++ ": switching data off.") ;;
  interact SetDataSwitchOff ;;
  logger (router_name ++ ": switching data on.") ;;
  interact SetDataSwitchOn.

(** [force_4g(router)] *)
Definition force_4g : M unit :=
  logger (router_name ++ ": setting mode to 4G") ;;
  interact (SetNetworkMode "4G").

(** ["B%s" % text]: the prefixed form of a band. *)
Definition band_name (text : string) : string := "B" ++ text.

(** The [for child in signal_root] loop of [get_upload_band]; running off
    the end of the children reaches the [raise] after the loop. *)
Fixpoint scan_children (numerical : bool) (children : list Element)
  : M (option string) :=
  match children with
  | [] => raise RuntimeError "No band entry in device signal."
  | child :: rest =>
      if el_tag child =? "band" then
        match el_text child with
        | Some text =>
            if numerical then ret (Some text) else ret (Some (band_name text))
        | None => ret None
        end
      else scan_children numerical rest
  end%string.

(** [get_upload_band(router, numerical)] *)
Definition get_upload_band (numerical : bool) : M (option string) :=
  signal_root <- device_signal ;;
  scan_children numerical (el_children signal_root).

(** The [while True] loop of [wait_for_connection].  [ul_band] is the
    binding of the local variable of that name: [None] while it has not been
    assigned.  The result is its binding when the loop is left by [break].
    [fuel] bounds the number of rounds. *)
Fixpoint wait_loop (fuel : nat) (deadline : Z) (ul_band : option (option string))
  : M (option (option string)) :=
  match fuel with
  | O => diverge
  | S fuel' =>
      t <- datetime_now ;;
      if t >? deadline then
        logger (router_name ++ " was unable to connect to an antenna.") ;;
        ret ul_band
      else
        band <- get_upload_band false ;;
        match band with
        | Some _ => ret (Some band)
        | None => sleep 1 ;; wait_loop fuel' deadline (Some band)
        end
  end.

(** Rounds granted to the loop: every round that does not leave it sleeps a
    second, so the deadline has passed after [timeout + 1] rounds. *)
Definition wait_rounds (timeout : Z) : nat := Z.to_nat timeout + 2.

(** [timedelta(seconds=seconds)], in microseconds: the number of days of a
    [timedelta] is at most 999999999 in magnitude. *)
Definition timedelta (seconds : Z) : M Z :=
  let days := seconds / 86400 in
  if Z.abs days >? 999999999 then
    raise OverflowError
      ("days=" ++ str_int days ++ "; must have magnitude <= 999999999")
  else ret (seconds * second).

(** [t + delta] for a [datetime] [t] and a [timedelta] [delta]: the sum
    must not fall below [datetime.min], which is 0 on the clock.  (A clock
    reading is itself in range, so that only a negative [delta] can take the
    sum below it.) *)
Definition datetime_add (t delta : Z) : M Z :=
  if (delta <? 0) && (t + delta <? 0) then
    raise OverflowError "date value out of range"
  else ret (t + delta).

(** [wait_for_connection(router, timeout)] *)
Definition wait_for_connection (timeout : Z) : M bool :=
  if timeout >? 120 then
    raise RuntimeError ("Timeout value " ++ str_int timeout ++ " is too large.")
  else
    start <- datetime_now ;;
    delta <- timedelta timeout ;;
    deadline <- datetime_add start delta ;;
    ul_band <- wait_loop (wait_rounds timeout) deadline None ;;
    band <- read_local "ul_band" ul_band ;;
    ret (match band with Some _ => true | None => false end).

(** [set_upload_bands(router, bands)] *)
Definition set_upload_bands (bands : list string) : M unit :=
  interact (SetLteBand bands).

(** [force_band_setting(router, ul_bands, dl_bands)]; [wait_for_connection]
    is called with its default timeout, [connection_timeout]. *)
Definition force_band_setting (ul_bands dl_bands : list string) : M bool :=
  if (1 <? List.length ul_bands)%nat then
    raise NotImplementedError ""
  else
    connected <- wait_for_connection connection_timeout ;;
    (if negb connected then
       logger ("Router " ++ router_name
               ++ " is not connected yet. Forcing 4G and toggling antennas off/on.") ;;
       force_4g ;;
       toggle_data_off_on
     else ret tt) ;;
    connected <- wait_for_connection connection_timeout ;;
    if negb connected then
      raise RuntimeError "Could not acquire any antenna #1."
    else
      band <- get_upload_band false ;;
      if contains ul_bands band then ret true
      else
        set_upload_bands ul_bands ;;
        set_upload_bands dl_bands ;;
        connected <- wait_for_connection connection_timeout ;;
        if negb connected then
          raise RuntimeError "Could not acquire any antenna #2."
        else
          band <- get_upload_band false ;;
          ret (contains ul_bands band).

(** [upload_bands[0]] *)
Definition desired_band : string := nth 0 upload_bands "".

(** The [try] statement in the loop of [main]: one enforcement attempt and
    its two handlers. *)
Definition attempt : M unit :=
  try_except
    (ok <- force_band_setting upload_bands download_bands ;;
     if negb ok then
       raise Exception ("Router " ++ router_name ++ ": Forcing bands failed.")
     else ret tt)
    [ (RuntimeError, fun _ =>
         logger ("Router " ++ router_name
                 ++ ": Attempt to force bands failed: no antenna signal. "
                 ++ "Consider setting LTE bands to auto in the web interface"));
      (Exception, fun e => logger (exc_msg e ++ ", retrying...")) ].

(** The [while get_upload_band(router) != upload_bands[0]] loop of [main].
    [fuel] bounds the number of times the loop test is evaluated. *)
Fixpoint main_loop (fuel : nat) : M unit :=
  match fuel with
  | O => diverge
  | S fuel' =>
      band <- get_upload_band false ;;
      if negb (eq_str band desired_band) then
        current <- get_upload_band false ;;
        logger ("Router " ++ router_name ++ " is using " ++ str_opt current
                ++ " as upload band. Forcing " ++ desired_band ++ " instead.") ;;
        attempt ;;
        main_loop fuel'
      else ret tt
  end.

End Program.

Arguments datetime_now env w /.
Arguments interact env e w /.
Arguments sleep env seconds w /.
Arguments device_signal env w /.

(** ** Scenarios *)

(** Telemetry document reporting [band]; [None] is the empty band element. *)
Definition telemetry (band : option string) : Element :=
  Elem "response" None
    [Elem "rsrq" (Some "-9dB") []; Elem "band" band []; Elem "cell_id" (Some "1") []].

(** Telemetry document without a band element. *)
Definition telemetry_no_band : Element :=
  Elem "response" None [Elem "rsrq" (Some "-9dB") []].

(** An instantaneous environment that answers every telemetry read with the
    same document. *)
Definition steady (doc : Element) : Env :=
  mkEnv (mkAnswers (fun _ => 0%N) (fun _ => 0%N) (fun _ => doc)) (fun _ => eq_refl).

Definition w0 : World := mkWorld 0 0 [].

(** ** The error conditions, by the names the specification gives them *)

(** [wait_for_connection]: the timeout exceeds 120. *)
Definition ConfigError (timeout : Z) : Exc :=
  mkExc RuntimeError ("Timeout value " ++ str_int timeout ++ " is too large.").

(** [get_upload_band]: the telemetry has no band element. *)
Definition ParseError : Exc :=
  mkExc RuntimeError "No band entry in device signal.".

(** [force_band_setting]: more than one upload band. *)
Definition UnsupportedConfiguration : Exc := mkExc NotImplementedError "".

(** [force_band_setting]: no attachment, before ([NoAntenna1]) and after
    ([NoAntenna2]) the bands were set. *)
Definition NoAntenna1 : Exc :=
  mkExc RuntimeError "Could not acquire any antenna #1.".
Definition NoAntenna2 : Exc :=
  mkExc RuntimeError "Could not acquire any antenna #2.".

(** [wait_for_connection]: [ul_band] read before it was assigned. *)
Definition UnboundUlBand : Exc :=
  mkExc UnboundLocalError
    "local variable 'ul_band' referenced before assignment".

(** The kind of a failure: the class of the exception raised. *)
Definition kind {A} (r : Outcome A) : option ExcClass :=
  match r with
  | Raise e => Some (exc_class e)
  | _ => None
  end.

(** ** Reading telemetry and interaction traces *)

Definition is_band (child : Element) : bool := (el_tag child =? "band")%string.

(** The band field of a telemetry document: [None] when the document has no
    band element, otherwise the text of the first one ([Some None] when that
    element is empty). *)
Definition band_field (doc : Element) : option (option string) :=
  option_map el_text (find is_band (el_children doc)).

(** What [get_upload_band] answers for a given band field. *)
Definition band_result (numerical : bool) (field : option (option string))
  : Outcome (option string) :=
  match field with
  | None => Raise ParseError
  | Some None => Return None
  | Some (Some text) => Return (Some (if numerical then text else band_name text))
  end.

(** Modelled from the spec: the inverse of the prefix rule, called parse in
    the round-trip property; [manager.py] only ever formats.  It strips the
    leading letter B. *)
Definition parse_band (name : string) : option string :=
  match name with
  | String "B" text => Some text
  | _ => None
  end.

(** The world after one router call or log write [e]. *)
Definition after (env : Answers) (e : Event) (w : World) : World :=
  mkWorld (S (steps w)) (now w + Z.of_N (io_lag env (steps w))) (trace w ++ [e]).

(** Calls that change the router: mode reset, data switch, band list. *)
Definition is_control (e : Event) : bool :=
  match e with
  | SetNetworkMode _ | SetDataSwitchOff | SetDataSwitchOn | SetLteBand _ => true
  | _ => false
  end.

Definition is_poll (e : Event) : bool :=
  match e with
  | ReadSignal => true
  | _ => false
  end.

Definition control_calls (tr : list Event) : list Event := filter is_control tr.
Definition polls (tr : list Event) : nat := List.length (filter is_poll tr).

(** ** Worlds, phases and scenarios named in the statements *)

Definition after_clock (env : Answers) (w : World) : World :=
  mkWorld (S (steps w)) (now w + Z.of_N (clock_lag env (steps w))) (trace w).

Definition logged (env : Answers) (msg : string) (w : World) : World :=
  after env (Log (now (after_clock env w)) msg) (after_clock env w).

Definition slept (env : Answers) (seconds : Z) (w : World) : World :=
  mkWorld (S (steps w))
          (now w + seconds * second + Z.of_N (io_lag env (steps w)))
          (trace w ++ [Sleep seconds]).

Definition timeout_msg : string :=
  router_name ++ " was unable to connect to an antenna.".

(** [start + timedelta(seconds=timeout)] can be computed: always for a
    timeout that is not negative; for a negative one when the [timedelta]
    exists and the sum is not below [datetime.min]. *)
Definition no_overflow (start timeout : Z) : Prop :=
  0 <= timeout \/ (-86399999913600 <= timeout /\ 0 <= start + timeout * second).

(** The corrective unit taken when the first connectivity test fails. *)
Definition recovered (env : Answers) (w : World) : World :=
  let w1 :=
    logged env ("Router " ++ router_name
       ++ " is not connected yet. Forcing 4G and toggling antennas off/on.") w in
  let w2 := after env (SetNetworkMode "4G")
              (logged env (router_name ++ ": setting mode to 4G") w1) in
  let w3 := after env SetDataSwitchOff
              (logged env (router_name ++ ": switching data off.") w2) in
  after env SetDataSwitchOn
    (logged env (router_name ++ ": switching data on.") w3).

(** Lines 148 to 153: establish a baseline attachment, with one corrective
    unit if the first test fails. *)
Definition acquire_baseline (env : Answers) : M unit :=
  connected <- wait_for_connection env connection_timeout ;;
  (if negb connected then
     logger env ("Router " ++ router_name
             ++ " is not connected yet. Forcing 4G and toggling antennas off/on.") ;;
     force_4g env ;;
     toggle_data_off_on env
   else ret tt) ;;
  connected <- wait_for_connection env connection_timeout ;;
  if negb connected then
    raise RuntimeError "Could not acquire any antenna #1."
  else ret tt.

(** Lines 162 to 166: set the bands twice, test connectivity again, and
    report whether the band is now one of [ul_bands]. *)
Definition reconfigure (env : Answers) (ul_bands dl_bands : list string) : M bool :=
  set_upload_bands env ul_bands ;;
  set_upload_bands env dl_bands ;;
  connected <- wait_for_connection env connection_timeout ;;
  if negb connected then
    raise RuntimeError "Could not acquire any antenna #2."
  else
    band <- get_upload_band env false ;;
    ret (contains ul_bands band).

Definition corrective_unit : list Event :=
  [SetNetworkMode "4G"; SetDataSwitchOff; SetDataSwitchOn].




(** The world after a call of [wait_for_connection] that found a band at its
    first poll. *)
Definition polled_once (env : Answers) (w : World) : World :=
  after env ReadSignal (after_clock env (after_clock env w)).

(** The world after the two band calls. *)
Definition bands_set (env : Answers) (ul dl : list string) (w : World) : World :=
  after env (SetLteBand dl) (after env (SetLteBand ul) w).

(** The scenario of the specification: the router is attached to band 3
    until the band list has been set, and to band 28 afterwards (the seventh
    interaction of [force_band_setting] is the first band call). *)
Definition retuned : Env :=
  mkEnv (mkAnswers (fun _ => 0%N) (fun _ => 0%N)
                 (fun k => if (k <? 7)%nat then telemetry (Some "3") else telemetry (Some "28")))
        (fun _ => eq_refl).

Definition no_antenna_msg : string :=
  "Router " ++ router_name
  ++ ": Attempt to force bands failed: no antenna signal. "
  ++ "Consider setting LTE bands to auto in the web interface".

Definition retrying_msg : string :=
  "Router " ++ router_name ++ ": Forcing bands failed." ++ ", retrying...".

Definition using_msg (current : option string) : string :=
  "Router " ++ router_name ++ " is using " ++ str_opt current
  ++ " as upload band. Forcing " ++ desired_band ++ " instead.".

Definition error_conditions (timeout : Z) : list Exc :=
  [ConfigError timeout; ParseError; UnsupportedConfiguration; NoAntenna1; NoAntenna2].

(** ** Further definitions: polling rounds *)


(** ** Further definitions: the process [main] *)

(** The calls of [main] on the router object that open and close the
    session; each is recorded with the number of the interaction it is.
    Like the other router calls they take their time and are assumed not to
    fail. *)
Inductive SessionCall : Type :=
| Create (address : string)               (* lte.B525Router(router_ip) *)
| Login (username password : string)      (* router.login *)
| Logout.                                 (* router.logout *)

(** The state of the process: the world, and the session calls so far. *)
Record Process : Type := mkProcess {
  world : World;
  session : list (nat * SessionCall)
}.

(** How a run of [main] ends: it returns, it leaves through [sys.exit], an
    exception escapes, or it is still in its loop when the rounds granted to
    the loop are used up. *)
Inductive Ending : Type :=
| Finished
| Exited (status : Z)
| Crashed (e : Exc)
| Running.

Inductive Step (A : Type) : Type :=
| Go (a : A)
| Stop (e : Ending).
Arguments Go {A} a.
Arguments Stop {A} e.

Definition P (A : Type) : Type := Process -> Step A * Process.

Definition pret {A} (a : A) : P A := fun p => (Go a, p).

Definition pbind {A B} (m : P A) (k : A -> P B) : P B :=
  fun p =>
    match m p with
    | (Go a, p') => k a p'
    | (Stop e, p') => (Stop e, p')
    end.

Declare Scope proc_scope.
Delimit Scope proc_scope with proc.
Notation "x <- m ;; k" := (pbind m (fun x => k))
  (at level 100, m at next level, right associativity) : proc_scope.
Notation "m ;; k" := (pbind m (fun _ => k))
  (at level 100, right associativity) : proc_scope.

(** A piece of the program run inside the process; an exception that it
    raises escapes, since [main] has no handler around it. *)
Definition lift {A} (m : M A) : P A :=
  fun p =>
    match m (world p) with
    | (Return a, w') => (Go a, mkProcess w' (session p))
    | (Raise e, w') => (Stop (Crashed e), mkProcess w' (session p))
    | (Diverge, w') => (Stop Running, mkProcess w' (session p))
    end.

(** [sys.exit()]: exit status 0. *)
Definition sys_exit {A} : P A := fun p => (Stop (Exited 0), p).

Definition router_ip : string := "".
Definition router_login : string := "admin".
Definition router_password : string := "".

Section Main.

Variable env : Answers.

(** [str] of a [datetime], from the standard library. *)
Variable str_datetime : Z -> string.

(** A session call: it takes its time like any router call. *)
Definition session_call (c : SessionCall) : P unit :=
  fun p =>
    let w := world p in
    (Go tt,
     mkProcess
       (mkWorld (S (steps w)) (now w + Z.of_N (io_lag env (steps w))) (trace w))
       (session p ++ [(steps w, c)])).

(** [main()]; [fuel] bounds the rounds of its loop. *)
Definition main (fuel : nat) : Process -> Ending * Process :=
  fun p =>
    match
      (lift (logger env ("Router " ++ router_name ++ ": Starting monitoring.")) ;;
       session_call (Create router_ip) ;;
       session_call (Login router_login router_password) ;;
       connected <- lift (wait_for_connection env 1) ;;
       (if negb connected then
          lift (logger env ("Router " ++ router_name ++ " is not connected yet"))
        else pret tt) ;;
       band <- lift (get_upload_band env false) ;;
       (if eq_str band desired_band then
          lift (logger env ("Router " ++ router_name
                            ++ " is properly set up, exiting.")) ;;
          session_call Logout ;;
          sys_exit
        else pret tt) ;;
       lift (main_loop env fuel) ;;
       lift (logger env ("Router " ++ router_name ++ " is properly set up.")) ;;
       session_call Logout ;;
       t <- lift (datetime_now env) ;;
       lift (logger env ("Stopping at " ++ str_datetime t)))%proc p
    with
    | (Go _, p') => (Finished, p')
    | (Stop e, p') => (e, p')
    end.

End Main.

(** A rendering of the clock for the examples: the microseconds in decimal. *)
Definition show_clock (t : Z) : string := str_int t.

Definition p0 : Process := mkProcess w0 [].


(** The router attaches, to band 28, from interaction [k0] on. *)
Definition attached_from (k0 : nat) : Env :=
  mkEnv (mkAnswers (fun _ => 0%N) (fun _ => 0%N)
                 (fun k => if (k <? k0)%nat then telemetry None else telemetry (Some "28")))
        (fun _ => eq_refl).

(** The process after a session call. *)
Definition entered (env : Answers) (c : SessionCall) (p : Process) : Process :=
  mkProcess
    (mkWorld (S (steps (world p)))
             (now (world p) + Z.of_N (io_lag env (steps (world p))))
             (trace (world p)))
    (session p ++ [(steps (world p), c)]).

Definition starting_msg : string :=
  "Router " ++ router_name ++ ": Starting monitoring.".
Definition not_connected_msg : string :=
  "Router " ++ router_name ++ " is not connected yet".
Definition exiting_msg : string :=
  "Router " ++ router_name ++ " is properly set up, exiting.".
Definition set_up_msg : string :=
  "Router " ++ router_name ++ " is properly set up.".

(** The process after the first three statements of [main]: the starting
    line is logged, the router object created and the session opened. *)
Definition opened (env : Answers) (p : Process) : Process :=
  entered env (Login router_login router_password)
    (entered env (Create router_ip)
       (mkProcess (logged env starting_msg (world p)) (session p))).

(** The process after the early exit of [main], from the world [w] reached
    by the telemetry read of its test. *)
Definition left_early (env : Answers) (sess : list (nat * SessionCall)) (w : World)
  : Process :=
  entered env Logout (mkProcess (logged env exiting_msg w) sess).

(** The process after the last four statements of [main], from the world
    [w] in which the loop ended. *)
Definition closed (env : Answers) (str_datetime : Z -> string)
    (sess : list (nat * SessionCall)) (w : World) : Process :=
  let p1 := entered env Logout (mkProcess (logged env set_up_msg w) sess) in
  let w2 := after_clock env (world p1) in
  mkProcess (logged env ("Stopping at " ++ str_datetime (now w2)) w2) (session p1).

(** ** Telemetry reads *)

Lemma scan_children_spec (numerical : bool) (children : list Element) (w : World) :
  scan_children numerical children w
  = (band_result numerical (option_map el_text (find is_band children)), w).
Proof.
  induction children as [|child rest IH]; simpl.
  - reflexivity.
  - unfold is_band at 1. destruct (el_tag child =? "band")%string.
    + simpl. destruct (el_text child); [destruct numerical|]; reflexivity.
    + exact IH.
Qed.

Lemma get_upload_band_spec (env : Answers) (numerical : bool) (w : World) :
  get_upload_band env numerical w
  = (band_result numerical (band_field (signal env (steps w))),
     after env ReadSignal w).
Proof.
  unfold get_upload_band, bind. simpl.
  rewrite scan_children_spec. reflexivity.
Qed.

(** C2. For every telemetry document, [get_upload_band] performs one
    telemetry read and then: fails with the parse error when the document has
    no band field; returns none when the band field is present and empty;
    otherwise returns the band, prefixed or bare as [numerical] asks. *)
Theorem get_upload_band_by_band_field (env : Env) (numerical : bool) (w : World) :
  let doc := signal env (steps w) in
  snd (get_upload_band env numerical w) = after env ReadSignal w /\
  fst (get_upload_band env numerical w)
  = match band_field doc with
    | None => Raise ParseError
    | Some None => Return None
    | Some (Some text) =>
        Return (Some (if numerical then text else band_name text))
    end /\
  Raise ParseError <> Return (@None string).
Proof.
  cbv zeta. rewrite get_upload_band_spec. simpl.
  split; [reflexivity|]. split; [|discriminate].
  destruct (band_field _) as [[text|]|]; reflexivity.
Qed.

(** ** Worlds after the primitive interactions *)

Lemma bind_return {A B} (m : M A) (k : A -> M B) (w : World) a w' :
  m w = (Return a, w') -> bind m k w = k a w'.
Proof. intros H. unfold bind. rewrite H. reflexivity. Qed.

Lemma not_false : negb false = true.
Proof. reflexivity. Qed.

Lemma not_true : negb true = false.
Proof. reflexivity. Qed.

Lemma bind_raise {A B} (m : M A) (k : A -> M B) (w : World) e w' :
  m w = (Raise e, w') -> bind m k w = (Raise e, w').
Proof. intros H. unfold bind. rewrite H. reflexivity. Qed.

Lemma bind_unfold {A B} (m : M A) (k : A -> M B) (w : World) :
  bind m k w
  = match m w with
    | (Return a, w') => k a w'
    | (Raise e, w') => (Raise e, w')
    | (Diverge, w') => (Diverge, w')
    end.
Proof. reflexivity. Qed.

Lemma datetime_now_spec (env : Answers) (w : World) :
  datetime_now env w = (Return (now (after_clock env w)), after_clock env w).
Proof. reflexivity. Qed.

Lemma logger_spec (env : Answers) (msg : string) (w : World) :
  logger env msg w = (Return tt, logged env msg w).
Proof. reflexivity. Qed.

Lemma wait_loop_step (env : Answers) (fuel : nat) (deadline : Z)
    (ul : option (option string)) (w : World) :
  wait_loop env (S fuel) deadline ul w
  = let w1 := after_clock env w in
    if now w1 >? deadline then (Return ul, logged env timeout_msg w1)
    else
      match band_field (signal env (steps w1)) with
      | None => (Raise ParseError, after env ReadSignal w1)
      | Some (Some text) =>
          (Return (Some (Some (band_name text))), after env ReadSignal w1)
      | Some None =>
          wait_loop env fuel deadline (Some None)
                    (slept env 1 (after env ReadSignal w1))
      end.
Proof.
  cbn [wait_loop]. unfold bind at 1. cbn [datetime_now]. cbv zeta.
  change (now (after_clock env w)) with (now w + Z.of_N (clock_lag env (steps w))).
  destruct (_ >? deadline).
  - reflexivity.
  - unfold bind at 1. rewrite get_upload_band_spec.
    change (mkWorld (S (steps w)) (now w + Z.of_N (clock_lag env (steps w))) (trace w))
      with (after_clock env w).
    destruct (band_field _) as [[text|]|]; reflexivity.
Qed.

Lemma timedelta_spec (timeout : Z) (w : World) :
  -86399999913600 <= timeout <= 120 ->
  timedelta timeout w = (Return (timeout * second), w).
Proof.
  intros Ht. unfold timedelta. cbv zeta.
  pose proof (Z.div_mod timeout 86400 ltac:(lia)) as Hdiv.
  pose proof (Z.mod_pos_bound timeout 86400 ltac:(lia)) as Hmod.
  destruct (Z.gtb_spec (Z.abs (timeout / 86400)) 999999999) as [Hbig|_];
    [lia|reflexivity].
Qed.


Lemma datetime_add_spec (t timeout : Z) (w : World) :
  0 <= timeout \/ 0 <= t + timeout * second ->
  datetime_add t (timeout * second) w = (Return (t + timeout * second), w).
Proof.
  intros Hok. unfold datetime_add.
  destruct (Z.ltb_spec (timeout * second) 0) as [Hneg|_];
    [|reflexivity].
  destruct (Z.ltb_spec (t + timeout * second) 0) as [Hlow|_];
    [|reflexivity].
  unfold second in *. lia.
Qed.

Lemma wait_for_connection_step (env : Answers) (timeout : Z) (w : World) :
  timeout <= 120 ->
  no_overflow (now (after_clock env w)) timeout ->
  wait_for_connection env timeout w
  = let w1 := after_clock env w in
    match wait_loop env (wait_rounds timeout) (now w1 + timeout * second) None w1 with
    | (Return (Some (Some _)), w') => (Return true, w')
    | (Return (Some None), w') => (Return false, w')
    | (Return None, w') => (Raise UnboundUlBand, w')
    | (Raise e, w') => (Raise e, w')
    | (Diverge, w') => (Diverge, w')
    end.
Proof.
  intros Ht Hok. unfold wait_for_connection.
  destruct (Z.gtb_spec timeout 120) as [Hgt|_]; [lia|].
  rewrite (bind_return _ _ _ _ _ (datetime_now_spec env w)).
  rewrite (bind_return _ _ _ _ _ (timedelta_spec timeout _ ltac:(destruct Hok; lia))).
  rewrite (bind_return _ _ _ _ _
             (datetime_add_spec (now (after_clock env w)) timeout _
                ltac:(destruct Hok; [left|right]; lia))).
  cbv zeta. rewrite bind_unfold.
  destruct (wait_loop _ _ _ _ _) as [[[[b|]|]|e|] w']; reflexivity.
Qed.


(** ** The polling loop *)

Lemma second_pos : 0 < second.
Proof. reflexivity. Qed.

Lemma control_calls_app (l1 l2 : list Event) :
  control_calls (l1 ++ l2) = control_calls l1 ++ control_calls l2.
Proof. apply filter_app. Qed.

Lemma polls_app (l1 l2 : list Event) :
  polls (l1 ++ l2) = (polls l1 + polls l2)%nat.
Proof. unfold polls. rewrite filter_app, length_app. reflexivity. Qed.

(** Enough rounds: the loop does not run out of them. *)
Lemma wait_loop_total (env : Answers) (fuel : nat) :
  forall (deadline : Z) (ul : option (option string)) (w : World),
    (1 <= fuel)%nat ->
    deadline - now w < (Z.of_nat fuel - 1) * second ->
    fst (wait_loop env fuel deadline ul w) <> Diverge.
Proof.
  induction fuel as [|fuel IH]; intros deadline ul w Hfuel Hnow; [lia|].
  rewrite wait_loop_step. cbv zeta.
  destruct (Z.gtb_spec (now (after_clock env w)) deadline) as [Hlate|Hearly].
  - discriminate.
  - destruct (band_field _) as [[text|]|]; try discriminate.
    simpl in Hearly. pose proof second_pos as Hs.
    assert (Hpos : 0 <= deadline - now w) by lia.
    apply IH.
    + destruct fuel; [|lia]. simpl in Hnow. lia.
    + simpl. unfold second in *. lia.
Qed.

(** A run of the loop that has already polled once: it performs no control
    call, and ends on a timeout, on an attachment reported by some later
    telemetry read, or on a telemetry document without band field. *)
Lemma wait_loop_again (env : Answers) (fuel : nat) :
  forall (deadline : Z) (w : World) r w',
    wait_loop env fuel deadline (Some None) w = (r, w') ->
    (steps w <= steps w')%nat /\
    exists new,
      trace w' = trace w ++ new /\ control_calls new = [] /\
      (r = Return (Some None) \/
       (exists k text, (steps w <= k)%nat /\
          band_field (signal env k) = Some (Some text) /\
          r = Return (Some (Some (band_name text)))) \/
       (exists k, (steps w <= k)%nat /\
          band_field (signal env k) = None /\ r = Raise ParseError) \/
       r = Diverge).
Proof.
  induction fuel as [|fuel IH]; intros deadline w r w' Hrun.
  - inversion Hrun; subst. split; [lia|]. exists []. rewrite app_nil_r.
    repeat split. do 3 right. reflexivity.
  - rewrite wait_loop_step in Hrun. cbv zeta in Hrun.
    destruct (now (after_clock env w) >? deadline).
    + inversion Hrun; subst. split; [simpl; lia|].
      exists [Log (now (after_clock env (after_clock env w))) timeout_msg].
      repeat split. left. reflexivity.
    + destruct (band_field (signal env (steps (after_clock env w))))
        as [[text|]|] eqn:Hfield.
      * inversion Hrun; subst. split; [simpl; lia|].
        exists [ReadSignal]. repeat split; auto.
        right; left. exists (steps (after_clock env w)), text.
        simpl. simpl in Hfield. auto.
      * apply IH in Hrun. destruct Hrun as [Hsteps [new [Htr [Hquiet Hres]]]].
        simpl in Hsteps. split; [lia|].
        exists ([ReadSignal; Sleep 1] ++ new). split; [|split].
        -- rewrite Htr. simpl. rewrite <- !app_assoc. reflexivity.
        -- rewrite control_calls_app, Hquiet. reflexivity.
        -- destruct Hres as [H|[[k [text [Hk H]]]|[[k [Hk H]]|H]]].
           ++ left. exact H.
           ++ right; left. exists k, text. simpl in Hk. split; [lia|exact H].
           ++ right; right; left. exists k. simpl in Hk. split; [lia|exact H].
           ++ do 3 right. exact H.
      * inversion Hrun; subst. split; [simpl; lia|].
        exists [ReadSignal]. repeat split; auto.
        right; right; left. exists (steps (after_clock env w)).
        simpl. simpl in Hfield. auto.
Qed.

(** What a call of [wait_for_connection] with an admissible timeout does:
    no control call; either the deadline test fires at once (no poll, and
    [ul_band] is read unassigned), or at least one poll is made and the call
    returns a boolean or propagates the parse error. *)
Lemma wait_for_connection_spec (env : Answers) (timeout : Z) (w : World) r w' :
  timeout <= 120 ->
  no_overflow (now (after_clock env w)) timeout ->
  wait_for_connection env timeout w = (r, w') ->
  (steps w <= steps w')%nat /\
  exists new,
    trace w' = trace w ++ new /\ control_calls new = [] /\
    ((timeout * second < Z.of_N (clock_lag env (S (steps w))) /\
      r = Raise UnboundUlBand /\ polls new = O) \/
     (Z.of_N (clock_lag env (S (steps w))) <= timeout * second /\
      (1 <= polls new)%nat /\
      (r = Return false \/
       (r = Return true /\
        exists k text, (steps w <= k)%nat /\
          band_field (signal env k) = Some (Some text)) \/
       (r = Raise ParseError /\
        exists k, (steps w <= k)%nat /\ band_field (signal env k) = None)))).
Proof.
  intros Ht Hok Hrun. rewrite wait_for_connection_step in Hrun by assumption.
  cbv zeta in Hrun. unfold wait_rounds in Hrun.
  replace (Z.to_nat timeout + 2)%nat with (S (S (Z.to_nat timeout))) in Hrun by lia.
  rewrite wait_loop_step in Hrun. cbv zeta in Hrun.
  set (w1 := after_clock env w) in *. set (w2 := after_clock env w1) in *.
  assert (Hnow2 : now w2 = now w1 + Z.of_N (clock_lag env (S (steps w))))
    by reflexivity.
  destruct (Z.gtb_spec (now w2) (now w1 + timeout * second)) as [Hlate|Hearly].
  - inversion Hrun; subst r w'. split; [unfold w2, w1; simpl; lia|].
    exists [Log (now (after_clock env w2)) timeout_msg].
    split; [reflexivity|]. split; [reflexivity|].
    left. repeat split. lia.
  - assert (Hlag : Z.of_N (clock_lag env (S (steps w))) <= timeout * second) by lia.
    destruct (band_field (signal env (steps w2))) as [[text|]|] eqn:Hfield.
    + inversion Hrun; subst r w'. split; [unfold w2, w1; simpl; lia|].
      exists [ReadSignal]. split; [reflexivity|]. split; [reflexivity|].
      right. split; [exact Hlag|]. split; [unfold polls; simpl; lia|].
      right; left. split; [reflexivity|].
      exists (steps w2), text. split; [unfold w2, w1; simpl; lia|exact Hfield].
    + destruct (wait_loop env (S (Z.to_nat timeout)) (now w1 + timeout * second)
                  (Some None) (slept env 1 (after env ReadSignal w2)))
        as [r0 w0'] eqn:Hloop.
      assert (Htotal : r0 <> Diverge).
      { change r0 with (fst (r0, w0')). rewrite <- Hloop.
        apply wait_loop_total; [lia|].
        unfold w2, w1. cbn [now slept after after_clock]. unfold second. lia. }
      apply wait_loop_again in Hloop.
      destruct Hloop as [Hsteps [new [Htr [Hquiet Hres]]]].
      unfold w2, w1 in Hsteps. simpl in Hsteps.
      assert (Hw' : w' = w0').
      { destruct r0 as [[[b|]|]|e|]; inversion Hrun; reflexivity. }
      subst w0'. split; [lia|].
      exists ([ReadSignal; Sleep 1] ++ new). split; [|split].
      * rewrite Htr. simpl. rewrite <- !app_assoc. reflexivity.
      * rewrite control_calls_app, Hquiet. reflexivity.
      * right. split; [exact Hlag|]. split; [rewrite polls_app; unfold polls; simpl; lia|].
        destruct Hres as [H|[[k [text [Hk [Hf H]]]]|[[k [Hk [Hf H]]]|H]]]; subst r0;
          try (unfold w2, w1 in Hk; cbn [steps slept after after_clock] in Hk).
        -- inversion Hrun. left; reflexivity.
        -- inversion Hrun. right; left. split; [reflexivity|].
           exists k, text. split; [lia|exact Hf].
        -- inversion Hrun. right; right. split; [reflexivity|].
           exists k. split; [lia|exact Hf].
        -- contradiction.
    + inversion Hrun; subst r w'. split; [unfold w2, w1; simpl; lia|].
      exists [ReadSignal]. split; [reflexivity|]. split; [reflexivity|].
      right. split; [exact Hlag|]. split; [unfold polls; simpl; lia|].
      right; right. split; [reflexivity|].
      exists (steps w2). split; [unfold w2, w1; simpl; lia|exact Hfield].
Qed.

(** With a positive timeout the first deadline test cannot fire: the clock
    read that follows the one for [start] returns within a second. *)
Lemma wait_for_connection_polls (env : Env) (timeout : Z) (w : World) r w' :
  0 < timeout <= 120 ->
  wait_for_connection env timeout w = (r, w') ->
  (steps w <= steps w')%nat /\
  exists new,
    trace w' = trace w ++ new /\ control_calls new = [] /\
    (1 <= polls new)%nat /\
    (r = Return false \/
     (r = Return true /\
      exists k text, (steps w <= k)%nat /\
        band_field (signal env k) = Some (Some text)) \/
     (r = Raise ParseError /\
      exists k, (steps w <= k)%nat /\ band_field (signal env k) = None)).
Proof.
  intros [Hpos Hmax] Hrun.
  apply wait_for_connection_spec in Hrun; [|exact Hmax|left; lia].
  destruct Hrun as [Hsteps [new [Htr [Hquiet Hcases]]]].
  split; [exact Hsteps|]. exists new. split; [exact Htr|]. split; [exact Hquiet|].
  destruct Hcases as [[Hlate _]|[_ [Hpolls Hres]]].
  - pose proof (clock_prompt env (S (steps w))) as Hprompt.
    unfold second in Hlate. lia.
  - split; assumption.
Qed.

(** While the telemetry keeps reporting an empty band field, the call times
    out: it returns [False] after polling, without any control call. *)
Lemma wait_never_attached (env : Env) (timeout : Z) (w : World) :
  0 < timeout <= 120 ->
  (forall k, (steps w <= k)%nat -> band_field (signal env k) = Some None) ->
  exists w' new,
    wait_for_connection env timeout w = (Return false, w') /\
    (steps w <= steps w')%nat /\
    trace w' = trace w ++ new /\ control_calls new = [] /\ (1 <= polls new)%nat.
Proof.
  intros Ht Hnone.
  destruct (wait_for_connection env timeout w) as [r w'] eqn:Hrun.
  apply wait_for_connection_polls in Hrun; [|exact Ht].
  destruct Hrun as [Hsteps [new [Htr [Hquiet [Hpolls Hres]]]]].
  exists w', new.
  destruct Hres as [H|[[_ [k [text [Hk Hf]]]]|[_ [k [Hk Hf]]]]].
  - subst r. repeat split; assumption.
  - rewrite (Hnone k Hk) in Hf. discriminate.
  - rewrite (Hnone k Hk) in Hf. discriminate.
Qed.

(** When the first poll reports a band, the call returns [True] after that
    one poll. *)
Lemma wait_attached (env : Env) (timeout : Z) (w : World) (text : string) :
  0 < timeout <= 120 ->
  band_field (signal env (S (S (steps w)))) = Some (Some text) ->
  wait_for_connection env timeout w
  = (Return true, after env ReadSignal (after_clock env (after_clock env w))).
Proof.
  intros [Hpos Hmax] Hfield.
  rewrite wait_for_connection_step by (try left; lia). cbv zeta.
  unfold wait_rounds.
  replace (Z.to_nat timeout + 2)%nat with (S (S (Z.to_nat timeout))) by lia.
  rewrite wait_loop_step. cbv zeta.
  destruct (Z.gtb_spec (now (after_clock env (after_clock env w)))
              (now (after_clock env w) + timeout * second)) as [Hlate|_].
  - pose proof (clock_prompt env (S (steps w))) as Hprompt.
    cbn [now steps after_clock] in Hlate. unfold second in Hlate. lia.
  - cbn [steps after_clock]. rewrite Hfield. reflexivity.
Qed.

(** ** The polling loop, round by round *)







(** ** The phases of [force_band_setting] *)

Lemma force_band_setting_phases (env : Answers) (ul dl : list string) (w : World) :
  (List.length ul <= 1)%nat ->
  force_band_setting env ul dl w
  = (acquire_baseline env ;;
     band <- get_upload_band env false ;;
     if contains ul band then ret true else reconfigure env ul dl) w.
Proof.
  intros Hlen. unfold force_band_setting, acquire_baseline, reconfigure.
  destruct (Nat.ltb_spec 1 (List.length ul)) as [Hgt|_]; [lia|].
  unfold bind.
  destruct (wait_for_connection env connection_timeout w) as [[c1| |] w1];
    try reflexivity.
  destruct c1; cbn [negb].
  - cbn [ret].
    destruct (wait_for_connection env connection_timeout w1) as [[[|]| |] w3];
      reflexivity.
  - destruct (logger env _ w1) as [[[]| |] w2]; try reflexivity.
    destruct (force_4g env w2) as [[[]| |] w2']; try reflexivity.
    destruct (toggle_data_off_on env w2') as [[[]| |] w2'']; try reflexivity.
    destruct (wait_for_connection env connection_timeout w2'') as [[[|]| |] w3];
      reflexivity.
Qed.

Lemma interact_spec (env : Answers) (e : Event) (w : World) :
  interact env e w = (Return tt, after env e w).
Proof. reflexivity. Qed.

Lemma steps_after env e w : steps (after env e w) = S (steps w).
Proof. reflexivity. Qed.
Lemma trace_after env e w : trace (after env e w) = trace w ++ [e].
Proof. reflexivity. Qed.
Lemma steps_logged env msg w : steps (logged env msg w) = S (S (steps w)).
Proof. reflexivity. Qed.
Lemma trace_logged env msg w :
  trace (logged env msg w) = trace w ++ [Log (now (after_clock env w)) msg].
Proof. reflexivity. Qed.

Lemma force_4g_spec (env : Answers) (w : World) :
  force_4g env w
  = (Return tt, after env (SetNetworkMode "4G")
                  (logged env (router_name ++ ": setting mode to 4G") w)).
Proof.
  unfold force_4g. rewrite (bind_return _ _ _ _ _ (logger_spec _ _ _)).
  apply interact_spec.
Qed.

Lemma toggle_data_off_on_spec (env : Answers) (w : World) :
  toggle_data_off_on env w
  = (Return tt,
     after env SetDataSwitchOn
       (logged env (router_name ++ ": switching data on.")
          (after env SetDataSwitchOff
             (logged env (router_name ++ ": switching data off.") w)))).
Proof.
  unfold toggle_data_off_on.
  rewrite (bind_return _ _ _ _ _ (logger_spec _ _ _)).
  rewrite (bind_return _ _ _ _ _ (interact_spec _ _ _)).
  rewrite (bind_return _ _ _ _ _ (logger_spec _ _ _)).
  apply interact_spec.
Qed.

Lemma recovery_spec (env : Answers) (w : World) :
  (logger env ("Router " ++ router_name
       ++ " is not connected yet. Forcing 4G and toggling antennas off/on.") ;;
   force_4g env ;;
   toggle_data_off_on env) w
  = (Return tt, recovered env w).
Proof.
  rewrite (bind_return _ _ _ _ _ (logger_spec _ _ _)).
  rewrite (bind_return _ _ _ _ _ (force_4g_spec _ _)).
  rewrite toggle_data_off_on_spec. reflexivity.
Qed.

Lemma recovered_trace (env : Answers) (w : World) :
  (steps w <= steps (recovered env w))%nat /\
  exists new,
    trace (recovered env w) = trace w ++ new /\
    control_calls new = corrective_unit /\ polls new = O.
Proof.
  unfold recovered. cbv zeta. split.
  - repeat (rewrite steps_after || rewrite steps_logged). lia.
  - eexists. split.
    + repeat (rewrite trace_after || rewrite trace_logged).
      rewrite <- !app_assoc. reflexivity.
    + split; reflexivity.
Qed.

(** Every run of the baseline phase: at most one corrective unit, no band
    call, and one of three outcomes. *)
Lemma acquire_baseline_spec (env : Env) (w : World) r w' :
  acquire_baseline env w = (r, w') ->
  (steps w <= steps w')%nat /\
  exists new,
    trace w' = trace w ++ new /\
    (control_calls new = [] \/ control_calls new = corrective_unit) /\
    (r = Return tt \/ r = Raise NoAntenna1 \/ r = Raise ParseError).
Proof.
  unfold acquire_baseline. intros Hrun. rewrite bind_unfold in Hrun.
  destruct (wait_for_connection env connection_timeout w) as [r1 w1] eqn:H1.
  apply wait_for_connection_polls in H1; [|unfold connection_timeout; lia].
  destruct H1 as [Hs1 [new1 [Htr1 [Hq1 [_ Hres1]]]]].
  assert (Hsecond : forall (w2 : World) (mid : list Event),
    (steps w <= steps w2)%nat ->
    trace w2 = trace w ++ mid ->
    (control_calls mid = [] \/ control_calls mid = corrective_unit) ->
    (connected <- wait_for_connection env connection_timeout ;;
     if negb connected then raise RuntimeError "Could not acquire any antenna #1."
     else ret tt) w2 = (r, w') ->
    (steps w <= steps w')%nat /\
    exists new,
      trace w' = trace w ++ new /\
      (control_calls new = [] \/ control_calls new = corrective_unit) /\
      (r = Return tt \/ r = Raise NoAntenna1 \/ r = Raise ParseError)).
  { intros w2 mid Hs2 Htr2 Hmid Hrun2. rewrite bind_unfold in Hrun2.
    destruct (wait_for_connection env connection_timeout w2) as [r3 w3] eqn:H3.
    apply wait_for_connection_polls in H3; [|unfold connection_timeout; lia].
    destruct H3 as [Hs3 [new3 [Htr3 [Hq3 [_ Hres3]]]]].
    assert (Hw : w3 = w').
    { destruct Hres3 as [H|[[H _]|[H _]]]; subst r3; inversion Hrun2; reflexivity. }
    subst w3. split; [lia|].
    exists (mid ++ new3). split; [|split].
    - rewrite Htr3, Htr2, app_assoc. reflexivity.
    - rewrite control_calls_app, Hq3, app_nil_r. exact Hmid.
    - destruct Hres3 as [H|[[H _]|[H _]]]; subst r3; inversion Hrun2; auto. }
  destruct Hres1 as [H|[[H _]|[H _]]]; subst r1.
  - cbv beta iota in Hrun. rewrite not_false in Hrun.
    rewrite (bind_return _ _ _ _ _ (recovery_spec env w1)) in Hrun.
    destruct (recovered_trace env w1) as [Hsr [newr [Htrr [Hqr _]]]].
    apply (Hsecond (recovered env w1) (new1 ++ newr)); [lia| |right|exact Hrun].
    + rewrite Htrr, Htr1, app_assoc. reflexivity.
    + rewrite control_calls_app, Hq1, Hqr. reflexivity.
  - cbv beta iota in Hrun. rewrite not_true in Hrun.
    rewrite (bind_return _ _ _ tt w1 (eq_refl (Return tt, w1))) in Hrun.
    apply (Hsecond w1 new1); [lia|exact Htr1|left; exact Hq1|exact Hrun].
  - inversion Hrun; subst. split; [lia|]. exists new1. auto.
Qed.

(** A router that reports an empty band field at every read. *)
Lemma force_band_setting_never_attached (env : Env) (ul dl : list string)
    (w : World) :
  (List.length ul <= 1)%nat ->
  (forall k, (steps w <= k)%nat -> band_field (signal env k) = Some None) ->
  exists w' new,
    force_band_setting env ul dl w = (Raise NoAntenna1, w') /\
    trace w' = trace w ++ new /\
    control_calls new = corrective_unit /\
    (forall bands, ~ In (SetLteBand bands) new).
Proof.
  intros Hlen Hnone.
  destruct (wait_never_attached env connection_timeout w)
    as [w1 [new1 [Hrun1 [Hs1 [Htr1 [Hq1 _]]]]]];
    [unfold connection_timeout; lia|exact Hnone|].
  destruct (recovered_trace env w1) as [Hsr [newr [Htrr [Hqr _]]]].
  destruct (wait_never_attached env connection_timeout (recovered env w1))
    as [w3 [new3 [Hrun3 [Hs3 [Htr3 [Hq3 _]]]]]];
    [unfold connection_timeout; lia| |].
  { intros k Hk. apply Hnone. lia. }
  assert (Hctl : control_calls (new1 ++ newr ++ new3) = corrective_unit).
  { rewrite !control_calls_app, Hq1, Hqr, Hq3. reflexivity. }
  exists w3, (new1 ++ newr ++ new3). split; [|split; [|split]].
  - rewrite force_band_setting_phases by exact Hlen.
    apply bind_raise. unfold acquire_baseline.
    rewrite (bind_return _ _ _ _ _ Hrun1). cbn [negb].
    rewrite (bind_return _ _ _ _ _ (recovery_spec env w1)).
    rewrite (bind_return _ _ _ _ _ Hrun3). reflexivity.
  - rewrite Htr3, Htrr, Htr1, <- !app_assoc. reflexivity.
  - exact Hctl.
  - intros bands Hin.
    assert (Hin' : In (SetLteBand bands) (control_calls (new1 ++ newr ++ new3))).
    { apply filter_In. split; [exact Hin|reflexivity]. }
    rewrite Hctl in Hin'. simpl in Hin'.
    destruct Hin' as [H|[H|[H|[]]]]; discriminate.
Qed.

(** ** The guards *)

(** C5. With more than one upload band [force_band_setting] raises
    [NotImplementedError] at once: the world is untouched, so no call at all
    was made on the router. *)
Theorem many_upload_bands_unsupported (env : Env) (ul dl : list string) (w : World) :
  (1 < List.length ul)%nat ->
  force_band_setting env ul dl w = (Raise UnsupportedConfiguration, w).
Proof.
  intros Hlen. unfold force_band_setting.
  destruct (Nat.ltb_spec 1 (List.length ul)) as [_|Hle]; [reflexivity|lia].
Qed.

Lemma many_upload_bands_unsupported_witness :
  force_band_setting (steady (telemetry (Some "3"))) ["B28"; "B3"] download_bands w0
  = (Raise UnsupportedConfiguration, w0).
Proof.
  apply (many_upload_bands_unsupported (steady (telemetry (Some "3")))
           ["B28"; "B3"] download_bands w0).
  simpl. lia.
Defined.

Lemma wait_for_connection_too_large (env : Answers) (timeout : Z) (w : World) :
  120 < timeout ->
  wait_for_connection env timeout w = (Raise (ConfigError timeout), w).
Proof.
  intros Ht. unfold wait_for_connection.
  destruct (Z.gtb_spec timeout 120) as [_|Hle]; [reflexivity|lia].
Qed.




(** ** The two forms of a band *)

(** C9. For a band token [n] reported by the telemetry, the prefixed form is
    the letter B followed by [n], stripping the prefix gives [n] back, the
    [numerical] flag selects between [n] and the prefixed form of the same
    read, and two tokens with the same prefixed form are the same token. *)
Theorem band_forms_round_trip (env : Env) (w : World) (n : string) :
  band_field (signal env (steps w)) = Some (Some n) ->
  band_name n = String "B" n /\
  parse_band (band_name n) = Some n /\
  fst (get_upload_band env true w) = Return (Some n) /\
  fst (get_upload_band env false w) = Return (Some (band_name n)) /\
  (forall m, band_name m = band_name n -> m = n).
Proof.
  intros Hfield. rewrite !get_upload_band_spec, Hfield.
  repeat split. intros m H. inversion H. reflexivity.
Qed.

Lemma band_forms_round_trip_witness :
  band_name "28" = String "B" "28" /\
  parse_band (band_name "28") = Some "28" /\
  fst (get_upload_band (steady (telemetry (Some "28"))) true w0) = Return (Some "28") /\
  fst (get_upload_band (steady (telemetry (Some "28"))) false w0)
  = Return (Some (band_name "28")) /\
  (forall m, band_name m = band_name "28" -> m = "28").
Proof.
  apply (band_forms_round_trip (steady (telemetry (Some "28"))) w0 "28").
  reflexivity.
Defined.

(** ** The first poll *)




(** ** Already on the desired band *)

Lemma get_upload_band_attached (env : Answers) (w : World) (text : string) :
  band_field (signal env (steps w)) = Some (Some text) ->
  get_upload_band env false w
  = (Return (Some (band_name text)), after env ReadSignal w).
Proof. intros H. rewrite get_upload_band_spec, H. reflexivity. Qed.

Lemma steps_polled_once env w : steps (polled_once env w) = S (S (S (steps w))).
Proof. reflexivity. Qed.

Lemma trace_polled_once env w : trace (polled_once env w) = trace w ++ [ReadSignal].
Proof. reflexivity. Qed.

(** A router that reports [text] at every read: [force_band_setting] returns
    [True] after three telemetry reads when the band is one of [ul]. *)
Lemma force_band_setting_attached (env : Env) (ul dl : list string) (w : World)
    (text : string) :
  (List.length ul <= 1)%nat ->
  (forall k, (steps w <= k)%nat -> band_field (signal env k) = Some (Some text)) ->
  contains ul (Some (band_name text)) = true ->
  force_band_setting env ul dl w
  = (Return true, after env ReadSignal (polled_once env (polled_once env w))).
Proof.
  intros Hlen Hall Hin.
  assert (Htimeout : 0 < connection_timeout <= 120) by (unfold connection_timeout; lia).
  assert (H1 : wait_for_connection env connection_timeout w
               = (Return true, polled_once env w)).
  { apply (wait_attached env _ w text Htimeout). apply Hall. lia. }
  assert (H2 : wait_for_connection env connection_timeout (polled_once env w)
               = (Return true, polled_once env (polled_once env w))).
  { apply (wait_attached env _ _ text Htimeout). apply Hall.
    rewrite steps_polled_once. lia. }
  assert (H3 : get_upload_band env false (polled_once env (polled_once env w))
               = (Return (Some (band_name text)),
                  after env ReadSignal (polled_once env (polled_once env w)))).
  { apply get_upload_band_attached. apply Hall.
    rewrite !steps_polled_once. lia. }
  rewrite force_band_setting_phases by exact Hlen.
  assert (Hbase : acquire_baseline env w
                  = (Return tt, polled_once env (polled_once env w))).
  { unfold acquire_baseline.
    rewrite (bind_return _ _ _ _ _ H1). cbv beta. rewrite not_true.
    rewrite (bind_return _ _ _ tt _ (eq_refl (Return tt, polled_once env w))).
    rewrite (bind_return _ _ _ _ _ H2). cbv beta. rewrite not_true.
    reflexivity. }
  rewrite (bind_return _ _ _ _ _ Hbase).
  rewrite (bind_return _ _ _ _ _ H3). cbv beta. rewrite Hin. reflexivity.
Qed.

(** ** Reconfiguration *)

Lemma band_result_cases (numerical : bool) (field : option (option string)) :
  (exists band, band_result numerical field = Return band) \/
  band_result numerical field = Raise ParseError.
Proof.
  destruct field as [[text|]|]; simpl; [left|left|right]; eauto.
Qed.

(** Every run of the reconfiguration phase: the two band calls, first the
    upload list and then the download list, then only polling; the outcome is
    the second no-antenna error when the connectivity test fails, the
    membership of the band read last when it succeeds, or the parse error. *)
Lemma reconfigure_spec (env : Env) (ul dl : list string) (w : World) r w' :
  reconfigure env ul dl w = (r, w') ->
  (steps w <= steps w')%nat /\
  exists new,
    trace w' = trace w ++ [SetLteBand ul; SetLteBand dl] ++ new /\
    control_calls new = [] /\
    ((r = Raise NoAntenna2 /\
      wait_for_connection env connection_timeout (bands_set env ul dl w)
      = (Return false, w')) \/
     (exists w4 band,
        wait_for_connection env connection_timeout (bands_set env ul dl w)
        = (Return true, w4) /\
        get_upload_band env false w4 = (Return band, w') /\
        r = Return (contains ul band)) \/
     r = Raise ParseError).
Proof.
  unfold reconfigure, set_upload_bands. intros Hrun.
  rewrite (bind_return _ _ _ _ _ (interact_spec env (SetLteBand ul) w)) in Hrun.
  rewrite (bind_return _ _ _ _ _ (interact_spec env (SetLteBand dl) _)) in Hrun.
  fold (bands_set env ul dl w) in Hrun.
  rewrite bind_unfold in Hrun.
  destruct (wait_for_connection env connection_timeout (bands_set env ul dl w))
    as [r3 w4] eqn:H3.
  pose proof H3 as Hwait.
  apply wait_for_connection_polls in H3; [|unfold connection_timeout; lia].
  destruct H3 as [Hs3 [new3 [Htr3 [Hq3 [_ Hres3]]]]].
  assert (Hs : (steps w <= steps w4)%nat).
  { unfold bands_set in Hs3. rewrite !steps_after in Hs3. lia. }
  assert (Htr : trace w4 = trace w ++ [SetLteBand ul; SetLteBand dl] ++ new3).
  { rewrite Htr3. unfold bands_set. rewrite !trace_after, <- !app_assoc.
    reflexivity. }
  destruct Hres3 as [H|[[H _]|[H _]]]; subst r3.
  - cbv beta iota in Hrun. rewrite not_false in Hrun.
    inversion Hrun; subst r w'. split; [exact Hs|].
    exists new3. split; [exact Htr|]. split; [exact Hq3|].
    left. split; reflexivity.
  - cbv beta iota in Hrun. rewrite not_true in Hrun.
    cbv iota in Hrun. rewrite bind_unfold, get_upload_band_spec in Hrun.
    destruct (band_result_cases false (band_field (signal env (steps w4))))
      as [[band Hband]|Hband]; rewrite Hband in Hrun.
    + inversion Hrun; subst r w'. split; [rewrite steps_after; lia|].
      exists (new3 ++ [ReadSignal]). split; [|split].
      * rewrite trace_after, Htr, <- !app_assoc. reflexivity.
      * rewrite control_calls_app, Hq3. reflexivity.
      * right; left. exists w4, band.
        rewrite get_upload_band_spec, Hband. repeat split.
    + inversion Hrun; subst r w'. split; [rewrite steps_after; lia|].
      exists (new3 ++ [ReadSignal]). split; [|split].
      * rewrite trace_after, Htr, <- !app_assoc. reflexivity.
      * rewrite control_calls_app, Hq3. reflexivity.
      * right; right. reflexivity.
  - inversion Hrun; subst r w'. split; [exact Hs|].
    exists new3. split; [exact Htr|]. split; [exact Hq3|].
    right; right. reflexivity.
Qed.

(** The successful path of the reconfiguration phase. *)
Lemma reconfigure_connected (env : Answers) (ul dl : list string) (w w4 w5 : World)
    (band : option string) :
  wait_for_connection env connection_timeout (bands_set env ul dl w)
  = (Return true, w4) ->
  get_upload_band env false w4 = (Return band, w5) ->
  reconfigure env ul dl w = (Return (contains ul band), w5).
Proof.
  intros Hwait Hget. unfold reconfigure, set_upload_bands.
  rewrite (bind_return _ _ _ _ _ (interact_spec env (SetLteBand ul) w)).
  rewrite (bind_return _ _ _ _ _ (interact_spec env (SetLteBand dl) _)).
  fold (bands_set env ul dl w).
  rewrite (bind_return _ _ _ _ _ Hwait). cbv beta. rewrite not_true.
  rewrite (bind_return _ _ _ _ _ Hget). reflexivity.
Qed.

(** C6. When a baseline attachment exists and the band read then is not one
    of the upload bands, [force_band_setting] issues exactly two further
    control calls, the band call with the upload list and then the band call
    with the download list, tests connectivity again, and returns [True]
    exactly when that test passes and the band read afterwards is one of the
    upload bands; a passed test with another band returns [False], a failed
    test raises the second no-antenna error, and these differ. *)
Theorem mismatch_reconfigures (env : Env) (ul dl : list string)
    (w w1 w2 : World) (band : option string) :
  (List.length ul <= 1)%nat ->
  acquire_baseline env w = (Return tt, w1) ->
  get_upload_band env false w1 = (Return band, w2) ->
  contains ul band = false ->
  exists r w' new,
    force_band_setting env ul dl w = (r, w') /\
    trace w' = trace w2 ++ [SetLteBand ul; SetLteBand dl] ++ new /\
    control_calls new = [] /\
    ((r = Raise NoAntenna2 /\
      wait_for_connection env connection_timeout (bands_set env ul dl w2)
      = (Return false, w')) \/
     (exists w4 band',
        wait_for_connection env connection_timeout (bands_set env ul dl w2)
        = (Return true, w4) /\
        get_upload_band env false w4 = (Return band', w') /\
        r = Return (contains ul band')) \/
     r = Raise ParseError) /\
    (r = Return true <->
     exists w4 band',
       wait_for_connection env connection_timeout (bands_set env ul dl w2)
       = (Return true, w4) /\
       get_upload_band env false w4 = (Return band', w') /\
       contains ul band' = true) /\
    @Return bool false <> Raise NoAntenna2.
Proof.
  intros Hlen Hbase Hget Hmis.
  destruct (reconfigure env ul dl w2) as [r w'] eqn:Hrun.
  assert (Hfbs : force_band_setting env ul dl w = (r, w')).
  { rewrite force_band_setting_phases by exact Hlen.
    rewrite (bind_return _ _ _ _ _ Hbase).
    rewrite (bind_return _ _ _ _ _ Hget). cbv beta. rewrite Hmis. exact Hrun. }
  pose proof Hrun as Hrun0.
  apply reconfigure_spec in Hrun.
  destruct Hrun as [_ [new [Htr [Hquiet Hcases]]]].
  exists r, w', new.
  split; [exact Hfbs|]. split; [exact Htr|]. split; [exact Hquiet|].
  split; [exact Hcases|]. split; [|discriminate].
  split.
  - intros Hr. subst r.
    destruct Hcases as [[H _]|[[w4 [band' [Hw [Hg Hr]]]]|H]]; try discriminate.
    exists w4, band'. inversion Hr. auto.
  - intros [w4 [band' [Hw [Hg Hin]]]].
    rewrite (reconfigure_connected env ul dl w2 w4 w' band' Hw Hg) in Hrun0.
    inversion Hrun0 as [Hr]. rewrite Hin. reflexivity.
Qed.

Lemma mismatch_reconfigures_witness :
  let w2 := after retuned ReadSignal (polled_once retuned (polled_once retuned w0)) in
  exists r w' new,
    force_band_setting retuned ["B28"] download_bands w0 = (r, w') /\
    trace w' = trace w2 ++ [SetLteBand ["B28"]; SetLteBand download_bands] ++ new /\
    control_calls new = [] /\
    ((r = Raise NoAntenna2 /\
      wait_for_connection retuned connection_timeout
        (bands_set retuned ["B28"] download_bands w2) = (Return false, w')) \/
     (exists w4 band',
        wait_for_connection retuned connection_timeout
          (bands_set retuned ["B28"] download_bands w2) = (Return true, w4) /\
        get_upload_band retuned false w4 = (Return band', w') /\
        r = Return (contains ["B28"] band')) \/
     r = Raise ParseError) /\
    (r = Return true <->
     exists w4 band',
       wait_for_connection retuned connection_timeout
         (bands_set retuned ["B28"] download_bands w2) = (Return true, w4) /\
       get_upload_band retuned false w4 = (Return band', w') /\
       contains ["B28"] band' = true) /\
    @Return bool false <> Raise NoAntenna2.
Proof.
  cbv zeta.
  apply (mismatch_reconfigures retuned ["B28"] download_bands w0
           (polled_once retuned (polled_once retuned w0))
           (after retuned ReadSignal (polled_once retuned (polled_once retuned w0)))
           (Some "B3")).
  - simpl. lia.
  - vm_compute. reflexivity.
  - vm_compute. reflexivity.
  - reflexivity.
Defined.

(** Against C4 as stated: the call that finds the router on the desired
    band and the call that moves it there both return [True], the first
    without any control call, the second after the two band calls. *)
Lemma already_correct_tagged_as_success :
  fst (force_band_setting (steady (telemetry (Some "28"))) ["B28"] download_bands w0)
  = Return true /\
  control_calls
    (trace (snd (force_band_setting (steady (telemetry (Some "28")))
                   ["B28"] download_bands w0))) = [] /\
  fst (force_band_setting retuned ["B28"] download_bands w0) = Return true /\
  control_calls
    (trace (snd (force_band_setting retuned ["B28"] download_bands w0)))
  = [SetLteBand ["B28"]; SetLteBand ["B28"; "B3"; "B7"]].
Proof. vm_compute. repeat split. Qed.

(** C4 (amended). When every telemetry read reports a band that is one of
    the upload bands, [force_band_setting] returns [True] after three
    telemetry reads and no control call (no band call, no mode reset, no data
    switch call); [True] is also what the reconfiguration path returns when
    it succeeds, so the two outcomes carry the same value. *)
Theorem already_correct_no_control_calls (env : Env) (ul dl : list string)
    (w : World) (text : string) :
  (List.length ul <= 1)%nat ->
  (forall k, (steps w <= k)%nat -> band_field (signal env k) = Some (Some text)) ->
  contains ul (Some (band_name text)) = true ->
  (exists w' new,
     force_band_setting env ul dl w = (Return true, w') /\
     trace w' = trace w ++ new /\
     new = [ReadSignal; ReadSignal; ReadSignal] /\
     control_calls new = []) /\
  (forall env' w2 w4 w5 band,
     wait_for_connection env' connection_timeout (bands_set env' ul dl w2)
     = (Return true, w4) ->
     get_upload_band env' false w4 = (Return band, w5) ->
     contains ul band = true ->
     reconfigure env' ul dl w2 = (Return true, w5)).
Proof.
  intros Hlen Hall Hin. split.
  - eexists. exists [ReadSignal; ReadSignal; ReadSignal].
    split; [apply (force_band_setting_attached env ul dl w text Hlen Hall Hin)|].
    split; [|split; reflexivity].
    rewrite trace_after, !trace_polled_once, <- !app_assoc. reflexivity.
  - intros env' w2 w4 w5 band Hwait Hget Hband.
    rewrite (reconfigure_connected env' ul dl w2 w4 w5 band Hwait Hget), Hband.
    reflexivity.
Qed.

Lemma already_correct_no_control_calls_witness :
  exists w' new,
    force_band_setting (steady (telemetry (Some "28"))) ["B28"] download_bands w0
    = (Return true, w') /\
    trace w' = trace w0 ++ new /\
    new = [ReadSignal; ReadSignal; ReadSignal] /\
    control_calls new = [].
Proof.
  apply (proj1 (already_correct_no_control_calls
                  (steady (telemetry (Some "28"))) ["B28"] download_bands w0 "28"
                  ltac:(simpl; lia) ltac:(intros k _; reflexivity) eq_refl)).
Defined.

(** ** No attachment *)

Lemma no_band_call (new : list Event) :
  control_calls new = [] \/ control_calls new = corrective_unit ->
  forall bands, ~ In (SetLteBand bands) new.
Proof.
  intros Hctl bands Hin.
  assert (Hin' : In (SetLteBand bands) (control_calls new)).
  { apply filter_In. split; [exact Hin|reflexivity]. }
  destruct Hctl as [H|H]; rewrite H in Hin'; simpl in Hin'.
  - exact Hin'.
  - destruct Hin' as [H'|[H'|[H'|[]]]]; discriminate.
Qed.

(** The first no-antenna error can only come from the baseline phase, so
    the run that raises it has made no band call. *)
Lemma no_antenna_before_band_calls (env : Env) (ul dl : list string) (w w' : World) :
  (List.length ul <= 1)%nat ->
  force_band_setting env ul dl w = (Raise NoAntenna1, w') ->
  exists new,
    trace w' = trace w ++ new /\
    (control_calls new = [] \/ control_calls new = corrective_unit).
Proof.
  intros Hlen Hrun.
  rewrite force_band_setting_phases in Hrun by exact Hlen.
  rewrite bind_unfold in Hrun.
  destruct (acquire_baseline env w) as [r1 w1] eqn:Hbase.
  apply acquire_baseline_spec in Hbase.
  destruct Hbase as [_ [new [Htr [Hctl [H|[H|H]]]]]]; subst r1.
  - exfalso. rewrite bind_unfold, get_upload_band_spec in Hrun.
    destruct (band_result_cases false (band_field (signal env (steps w1))))
      as [[band Hband]|Hband]; rewrite Hband in Hrun; [|discriminate].
    destruct (contains ul band); [discriminate|].
    apply reconfigure_spec in Hrun.
    destruct Hrun as [_ [new' [_ [_ [[H _]|[[w4 [band' [_ [_ H]]]]|H]]]]]];
      discriminate.
  - inversion Hrun; subst w1. exists new. split; assumption.
  - discriminate.
Qed.

(** C3. If every telemetry read reports an empty band field (the device
    never attaches), [force_band_setting] raises the first no-antenna error;
    the control calls it has issued are exactly one mode reset to 4G and one
    data switch off and on, in that order.  Whenever that error is raised, no
    band call has been made. *)
Theorem never_attached_no_antenna (env : Env) (ul dl : list string) (w : World) :
  (List.length ul <= 1)%nat ->
  ((forall k, (steps w <= k)%nat -> band_field (signal env k) = Some None) ->
   exists w' new,
     force_band_setting env ul dl w = (Raise NoAntenna1, w') /\
     trace w' = trace w ++ new /\
     control_calls new = [SetNetworkMode "4G"; SetDataSwitchOff; SetDataSwitchOn]) /\
  (forall w',
     force_band_setting env ul dl w = (Raise NoAntenna1, w') ->
     exists new,
       trace w' = trace w ++ new /\ forall bands, ~ In (SetLteBand bands) new).
Proof.
  intros Hlen. split.
  - intros Hnone.
    destruct (force_band_setting_never_attached env ul dl w Hlen Hnone)
      as [w' [new [Hrun [Htr [Hctl _]]]]].
    exists w', new. repeat split; assumption.
  - intros w' Hrun.
    destruct (no_antenna_before_band_calls env ul dl w w' Hlen Hrun)
      as [new [Htr Hctl]].
    exists new. split; [exact Htr|]. apply no_band_call. exact Hctl.
Qed.

Lemma never_attached_no_antenna_witness :
  exists w' new,
    force_band_setting (steady (telemetry None)) ["B28"] download_bands w0
      = (Raise NoAntenna1, w') /\
    trace w' = trace w0 ++ new /\
    control_calls new = [SetNetworkMode "4G"; SetDataSwitchOff; SetDataSwitchOn].
Proof.
  apply (proj1 (never_attached_no_antenna (steady (telemetry None)) ["B28"]
                  download_bands w0 ltac:(simpl; lia))).
  intros k _. reflexivity.
Defined.

(** ** The outcomes of [force_band_setting] *)

(** The possible outcomes of [force_band_setting] with at most one upload
    band under a prompt clock; in particular it always terminates. *)
Lemma force_band_setting_outcomes (env : Env) (ul dl : list string) (w : World) :
  (List.length ul <= 1)%nat ->
  let r := fst (force_band_setting env ul dl w) in
  r = Return true \/ r = Return false \/
  r = Raise NoAntenna1 \/ r = Raise NoAntenna2 \/ r = Raise ParseError.
Proof.
  intros Hlen. cbv zeta.
  rewrite force_band_setting_phases by exact Hlen.
  rewrite bind_unfold.
  destruct (acquire_baseline env w) as [r1 w1] eqn:Hbase.
  apply acquire_baseline_spec in Hbase.
  destruct Hbase as [_ [new [_ [_ [H|[H|H]]]]]]; subst r1; cbn [fst]; auto.
  rewrite bind_unfold, get_upload_band_spec.
  destruct (band_result_cases false (band_field (signal env (steps w1))))
    as [[band Hband]|Hband]; rewrite Hband; cbn [fst]; auto 6.
  destruct (contains ul band); [left; reflexivity|].
  destruct (reconfigure env ul dl (after env ReadSignal w1)) as [r w'] eqn:Hrun.
  apply reconfigure_spec in Hrun.
  destruct Hrun as [_ [new' [_ [_ [[H _]|[[w4 [band' [_ [_ H]]]]|H]]]]]];
    subst r; cbn [fst]; auto 6.
  destruct (contains ul band'); auto.
Qed.

(** *** Any clock *)

(** The outcomes of a connectivity test with a timeout between 0 and 120,
    whatever the clock does: when the clock read of the first deadline test
    comes more than [timeout] seconds after the one for [start], the test
    fires before any poll and [ul_band] is read unassigned. *)
Lemma wait_for_connection_any_clock (env : Answers) (timeout : Z) (w : World) :
  0 <= timeout <= 120 ->
  exists r w',
    wait_for_connection env timeout w = (r, w') /\
    (r = Return true \/ r = Return false \/ r = Raise ParseError \/
     (r = Raise UnboundUlBand /\
      timeout * second < Z.of_N (clock_lag env (S (steps w))))).
Proof.
  intros [H0 Hmax].
  destruct (wait_for_connection env timeout w) as [r w'] eqn:Hrun.
  exists r, w'. split; [reflexivity|].
  apply wait_for_connection_spec in Hrun; [|exact Hmax|left; exact H0].
  destruct Hrun as [_ [new [_ [_ [[Hlate [Hr _]]|[_ [_ Hres]]]]]]].
  - do 3 right. split; assumption.
  - destruct Hres as [H|[[H _]|[H _]]]; auto.
Qed.

Lemma baseline_test_any_clock (env : Answers) (w : World) :
  let r :=
    fst ((connected <- wait_for_connection env connection_timeout ;;
          if negb connected then
            raise RuntimeError "Could not acquire any antenna #1."
          else ret tt) w) in
  r = Return tt \/ r = Raise NoAntenna1 \/ r = Raise ParseError \/
  (r = Raise UnboundUlBand /\
   exists k, connection_timeout * second < Z.of_N (clock_lag env k)).
Proof.
  cbv zeta.
  destruct (wait_for_connection_any_clock env connection_timeout w)
    as [r [w' [Hrun Hr]]]; [unfold connection_timeout; lia|].
  destruct Hr as [H|[H|[H|[H Hlag]]]]; subst r.
  - rewrite (bind_return _ _ _ _ _ Hrun). cbv beta. rewrite not_true.
    left. reflexivity.
  - rewrite (bind_return _ _ _ _ _ Hrun). cbv beta. rewrite not_false.
    right; left. reflexivity.
  - rewrite (bind_raise _ _ _ _ _ Hrun). right; right; left. reflexivity.
  - rewrite (bind_raise _ _ _ _ _ Hrun). do 3 right.
    split; [reflexivity|]. exists (S (steps w)). exact Hlag.
Qed.

Lemma acquire_baseline_any_clock (env : Answers) (w : World) :
  let r := fst (acquire_baseline env w) in
  r = Return tt \/ r = Raise NoAntenna1 \/ r = Raise ParseError \/
  (r = Raise UnboundUlBand /\
   exists k, connection_timeout * second < Z.of_N (clock_lag env k)).
Proof.
  cbv zeta. unfold acquire_baseline.
  destruct (wait_for_connection_any_clock env connection_timeout w)
    as [r [w' [Hrun Hr]]]; [unfold connection_timeout; lia|].
  destruct Hr as [H|[H|[H|[H Hlag]]]]; subst r.
  - rewrite (bind_return _ _ _ _ _ Hrun). cbv beta. rewrite not_true.
    rewrite (bind_return _ _ _ tt w' (eq_refl (Return tt, w'))).
    apply baseline_test_any_clock.
  - rewrite (bind_return _ _ _ _ _ Hrun). cbv beta. rewrite not_false.
    rewrite (bind_return _ _ _ _ _ (recovery_spec env w')).
    apply baseline_test_any_clock.
  - rewrite (bind_raise _ _ _ _ _ Hrun). right; right; left. reflexivity.
  - rewrite (bind_raise _ _ _ _ _ Hrun). do 3 right.
    split; [reflexivity|]. exists (S (steps w)). exact Hlag.
Qed.

Lemma reconfigure_any_clock (env : Answers) (ul dl : list string) (w : World) :
  let r := fst (reconfigure env ul dl w) in
  r = Return true \/ r = Return false \/ r = Raise NoAntenna2 \/
  r = Raise ParseError \/
  (r = Raise UnboundUlBand /\
   exists k, connection_timeout * second < Z.of_N (clock_lag env k)).
Proof.
  cbv zeta. unfold reconfigure, set_upload_bands.
  rewrite (bind_return _ _ _ _ _ (interact_spec env (SetLteBand ul) w)).
  rewrite (bind_return _ _ _ _ _ (interact_spec env (SetLteBand dl) _)).
  fold (bands_set env ul dl w).
  destruct (wait_for_connection_any_clock env connection_timeout
              (bands_set env ul dl w))
    as [r [w' [Hrun Hr]]]; [unfold connection_timeout; lia|].
  destruct Hr as [H|[H|[H|[H Hlag]]]]; subst r.
  - rewrite (bind_return _ _ _ _ _ Hrun). cbv beta. rewrite not_true.
    rewrite bind_unfold, get_upload_band_spec.
    destruct (band_result_cases false (band_field (signal env (steps w'))))
      as [[band Hband]|Hband]; rewrite Hband; cbn [fst].
    + destruct (contains ul band); [left|right; left]; reflexivity.
    + do 3 right. left. reflexivity.
  - rewrite (bind_return _ _ _ _ _ Hrun). cbv beta. rewrite not_false.
    right; right; left. reflexivity.
  - rewrite (bind_raise _ _ _ _ _ Hrun). do 3 right. left. reflexivity.
  - rewrite (bind_raise _ _ _ _ _ Hrun). do 4 right.
    split; [reflexivity|]. eexists. exact Hlag.
Qed.

(** The outcomes of [force_band_setting] whatever the clock does: those of
    a run under a prompt clock, and the [UnboundLocalError] of a
    connectivity test whose first deadline test came more than
    [connection_timeout] seconds after its [start]. *)
Lemma force_band_setting_any_clock (env : Answers) (ul dl : list string)
    (w : World) :
  (List.length ul <= 1)%nat ->
  let r := fst (force_band_setting env ul dl w) in
  r = Return true \/ r = Return false \/
  r = Raise NoAntenna1 \/ r = Raise NoAntenna2 \/ r = Raise ParseError \/
  (r = Raise UnboundUlBand /\
   exists k, connection_timeout * second < Z.of_N (clock_lag env k)).
Proof.
  intros Hlen. cbv zeta.
  rewrite force_band_setting_phases by exact Hlen.
  rewrite bind_unfold.
  pose proof (acquire_baseline_any_clock env w) as Hbase. cbv zeta in Hbase.
  destruct (acquire_baseline env w) as [r1 w1]. cbn [fst] in Hbase.
  destruct Hbase as [H|[H|[H|[H Hlag]]]]; subst r1; cbn [fst]; auto 9.
  rewrite bind_unfold, get_upload_band_spec.
  destruct (band_result_cases false (band_field (signal env (steps w1))))
    as [[band Hband]|Hband]; rewrite Hband; cbn [fst]; auto 9.
  destruct (contains ul band); [left; reflexivity|].
  destruct (reconfigure_any_clock env ul dl (after env ReadSignal w1))
    as [H|[H|[H|[H|[H Hlag]]]]]; rewrite H; auto 9.
Qed.

(** ** The retry loop *)

(** One attempt never fails: a [False] result and every exception that
    [force_band_setting] can raise are logged and absorbed. *)
Lemma attempt_spec (env : Answers) (w : World) :
  let out := force_band_setting env upload_bands download_bands w in
  (fst out = Return true -> attempt env w = (Return tt, snd out)) /\
  (fst out = Return false ->
   attempt env w = (Return tt, logged env retrying_msg (snd out))) /\
  (forall e, fst out = Raise e -> issubclass (exc_class e) RuntimeError = true ->
   attempt env w = (Return tt, logged env no_antenna_msg (snd out))).
Proof.
  cbv zeta. unfold attempt, try_except. rewrite bind_unfold.
  destruct (force_band_setting env upload_bands download_bands w) as [r w1].
  cbn [fst snd]. split; [|split].
  - intros H; subst r. reflexivity.
  - intros H; subst r. reflexivity.
  - intros e H Hclass; subst r. destruct e as [c msg].
    destruct c; try discriminate Hclass; reflexivity.
Qed.

(** The second handler of the attempt, [except Exception], absorbs the
    [UnboundLocalError] of a connectivity test. *)
Lemma attempt_absorbs_unbound (env : Answers) (w : World) :
  fst (force_band_setting env upload_bands download_bands w) = Raise UnboundUlBand ->
  attempt env w
  = (Return tt,
     logged env (exc_msg UnboundUlBand ++ ", retrying...")
       (snd (force_band_setting env upload_bands download_bands w))).
Proof.
  unfold attempt, try_except. rewrite bind_unfold.
  destruct (force_band_setting env upload_bands download_bands w) as [r w1].
  cbn [fst snd]. intros H; subst r. reflexivity.
Qed.

Lemma attempt_returns (env : Answers) (w : World) :
  exists w', attempt env w = (Return tt, w').
Proof.
  destruct (attempt_spec env w) as [Htrue [Hfalse Hraise]].
  destruct (force_band_setting_any_clock env upload_bands download_bands w)
    as [H|[H|[H|[H|[H|[H _]]]]]]; [simpl; lia| | | | | |].
  - eexists. apply Htrue. exact H.
  - eexists. apply Hfalse. exact H.
  - eexists. apply (Hraise _ H). reflexivity.
  - eexists. apply (Hraise _ H). reflexivity.
  - eexists. apply (Hraise _ H). reflexivity.
  - eexists. apply attempt_absorbs_unbound. exact H.
Qed.

Lemma acquire_baseline_attached (env : Env) (w : World) (text : string) :
  (forall k, (steps w <= k)%nat -> band_field (signal env k) = Some (Some text)) ->
  acquire_baseline env w = (Return tt, polled_once env (polled_once env w)).
Proof.
  intros Hall.
  assert (Htimeout : 0 < connection_timeout <= 120) by (unfold connection_timeout; lia).
  assert (H1 : wait_for_connection env connection_timeout w
               = (Return true, polled_once env w)).
  { apply (wait_attached env _ w text Htimeout). apply Hall. lia. }
  assert (H2 : wait_for_connection env connection_timeout (polled_once env w)
               = (Return true, polled_once env (polled_once env w))).
  { apply (wait_attached env _ _ text Htimeout). apply Hall.
    rewrite steps_polled_once. lia. }
  unfold acquire_baseline.
  rewrite (bind_return _ _ _ _ _ H1). cbv beta. rewrite not_true.
  rewrite (bind_return _ _ _ tt _ (eq_refl (Return tt, polled_once env w))).
  rewrite (bind_return _ _ _ _ _ H2). cbv beta. rewrite not_true.
  reflexivity.
Qed.

(** A router that stays on a band that is not an upload band: the bands are
    set, the router is still attached, and the result is [False]. *)
Lemma force_band_setting_mismatch (env : Env) (ul dl : list string) (w : World)
    (text : string) :
  (List.length ul <= 1)%nat ->
  (forall k, (steps w <= k)%nat -> band_field (signal env k) = Some (Some text)) ->
  contains ul (Some (band_name text)) = false ->
  exists w' new,
    force_band_setting env ul dl w = (Return false, w') /\
    trace w' = trace w ++ new /\
    control_calls new = [SetLteBand ul; SetLteBand dl].
Proof.
  intros Hlen Hall Hout.
  assert (Htimeout : 0 < connection_timeout <= 120) by (unfold connection_timeout; lia).
  set (w2 := polled_once env (polled_once env w)).
  set (w3 := after env ReadSignal w2).
  set (w4 := polled_once env (bands_set env ul dl w3)).
  assert (Hs2 : steps w2 = (6 + steps w)%nat) by reflexivity.
  assert (Hs3 : steps w3 = (7 + steps w)%nat) by reflexivity.
  assert (Hs4 : steps w4 = (12 + steps w)%nat) by reflexivity.
  assert (Hsb : steps (bands_set env ul dl w3) = (9 + steps w)%nat) by reflexivity.
  assert (Hget : get_upload_band env false w2 = (Return (Some (band_name text)), w3)).
  { apply get_upload_band_attached. apply Hall. lia. }
  assert (Hwait : wait_for_connection env connection_timeout (bands_set env ul dl w3)
                  = (Return true, w4)).
  { apply (wait_attached env _ _ text Htimeout). apply Hall. lia. }
  assert (Hget' : get_upload_band env false w4
                  = (Return (Some (band_name text)), after env ReadSignal w4)).
  { apply get_upload_band_attached. apply Hall. lia. }
  exists (after env ReadSignal w4),
    [ReadSignal; ReadSignal; ReadSignal; SetLteBand ul; SetLteBand dl;
     ReadSignal; ReadSignal].
  split; [|split; [|reflexivity]].
  - rewrite force_band_setting_phases by exact Hlen.
    rewrite (bind_return _ _ _ _ _ (acquire_baseline_attached env w text Hall)).
    fold w2. rewrite (bind_return _ _ _ _ _ Hget). cbv beta. rewrite Hout.
    rewrite (reconfigure_connected env ul dl w3 w4 _ _ Hwait Hget'), Hout.
    reflexivity.
  - unfold w4, w3, w2, bands_set.
    repeat (rewrite trace_after || rewrite trace_polled_once).
    rewrite <- !app_assoc. reflexivity.
Qed.

Lemma main_loop_exit (env : Answers) (fuel : nat) (w w1 : World) (band : option string) :
  get_upload_band env false w = (Return band, w1) ->
  eq_str band desired_band = true ->
  main_loop env (S fuel) w = (Return tt, w1).
Proof.
  intros Hget Heq. cbn [main_loop].
  rewrite (bind_return _ _ _ _ _ Hget). cbv beta. rewrite Heq. reflexivity.
Qed.

Lemma main_loop_retry (env : Answers) (fuel : nat) (w w1 w2 w4 : World)
    (band current : option string) :
  get_upload_band env false w = (Return band, w1) ->
  eq_str band desired_band = false ->
  get_upload_band env false w1 = (Return current, w2) ->
  attempt env (logged env (using_msg current) w2) = (Return tt, w4) ->
  main_loop env (S fuel) w = main_loop env fuel w4.
Proof.
  intros Hget Hne Hcur Hattempt. cbn [main_loop].
  rewrite (bind_return _ _ _ _ _ Hget). cbv beta. rewrite Hne, not_false.
  rewrite (bind_return _ _ _ _ _ Hcur).
  rewrite (bind_return _ _ _ _ _ (logger_spec env _ w2)).
  fold (using_msg current).
  rewrite (bind_return _ _ _ _ _ Hattempt). reflexivity.
Qed.

Lemma main_loop_raise (env : Answers) (fuel : nat) (w w1 : World) e :
  get_upload_band env false w = (Raise e, w1) ->
  main_loop env (S fuel) w = (Raise e, w1).
Proof.
  intros Hget. cbn [main_loop]. apply bind_raise. exact Hget.
Qed.

Lemma main_loop_raise_current (env : Answers) (fuel : nat) (w w1 w2 : World)
    (band : option string) e :
  get_upload_band env false w = (Return band, w1) ->
  eq_str band desired_band = false ->
  get_upload_band env false w1 = (Raise e, w2) ->
  main_loop env (S fuel) w = (Raise e, w2).
Proof.
  intros Hget Hne Hcur. cbn [main_loop].
  rewrite (bind_return _ _ _ _ _ Hget). cbv beta. rewrite Hne, not_false.
  apply bind_raise. exact Hcur.
Qed.

Lemma get_upload_band_cases (env : Answers) (w : World) :
  (exists band,
     get_upload_band env false w = (Return band, after env ReadSignal w)) \/
  get_upload_band env false w = (Raise ParseError, after env ReadSignal w).
Proof.
  rewrite get_upload_band_spec.
  destruct (band_result_cases false (band_field (signal env (steps w))))
    as [[band H]|H]; rewrite H; [left; exists band|right]; reflexivity.
Qed.

Lemma eq_str_true (band : option string) (s : string) :
  eq_str band s = true -> band = Some s.
Proof.
  destruct band as [t|]; simpl; [|discriminate].
  intros H. apply String.eqb_eq in H. subst t. reflexivity.
Qed.

(** The loop is left normally only by its test: the last thing done is a
    telemetry read that reported the desired band. *)
Lemma main_loop_exit_only (env : Answers) (fuel : nat) :
  forall w w',
    main_loop env fuel w = (Return tt, w') ->
    exists w1, get_upload_band env false w1 = (Return (Some desired_band), w').
Proof.
  induction fuel as [|fuel IH]; intros w w' Hrun; [discriminate|].
  destruct (get_upload_band_cases env w) as [[band Hget]|Hget].
  - destruct (eq_str band desired_band) eqn:Heq.
    + rewrite (main_loop_exit env fuel w _ band Hget Heq) in Hrun.
      inversion Hrun; subst w'. exists w.
      rewrite Hget, (eq_str_true _ _ Heq). reflexivity.
    + destruct (get_upload_band_cases env (after env ReadSignal w))
        as [[current Hcur]|Hcur].
      * destruct (attempt_returns env
                    (logged env (using_msg current)
                       (after env ReadSignal (after env ReadSignal w))))
          as [w4 Hattempt].
        rewrite (main_loop_retry env fuel w _ _ w4 band current
                   Hget Heq Hcur Hattempt) in Hrun.
        exact (IH w4 w' Hrun).
      * rewrite (main_loop_raise_current env fuel w _ _ band _ Hget Heq Hcur) in Hrun.
        discriminate.
  - rewrite (main_loop_raise env fuel w _ _ Hget) in Hrun. discriminate.
Qed.

(** The loop has no failure outcome of its own: it ends normally, is still
    running when the rounds are used up, or propagates the parse error of a
    telemetry read made outside the [try] statement. *)
Lemma main_loop_outcomes (env : Answers) (fuel : nat) :
  forall w,
    fst (main_loop env fuel w) = Return tt \/
    fst (main_loop env fuel w) = Raise ParseError \/
    fst (main_loop env fuel w) = Diverge.
Proof.
  induction fuel as [|fuel IH]; intros w; [right; right; reflexivity|].
  destruct (get_upload_band_cases env w) as [[band Hget]|Hget].
  - destruct (eq_str band desired_band) eqn:Heq.
    + rewrite (main_loop_exit env fuel w _ band Hget Heq). left. reflexivity.
    + destruct (get_upload_band_cases env (after env ReadSignal w))
        as [[current Hcur]|Hcur].
      * destruct (attempt_returns env
                    (logged env (using_msg current)
                       (after env ReadSignal (after env ReadSignal w))))
          as [w4 Hattempt].
        rewrite (main_loop_retry env fuel w _ _ w4 band current
                   Hget Heq Hcur Hattempt).
        apply IH.
      * rewrite (main_loop_raise_current env fuel w _ _ band _ Hget Heq Hcur).
        right; left. reflexivity.
  - rewrite (main_loop_raise env fuel w _ _ Hget). right; left. reflexivity.
Qed.

(** When every round fails its test and issues the control calls [calls],
    the loop is still running after any number of rounds, having issued
    [calls] once per round. *)
Lemma main_loop_unbounded (env : Answers) (calls : list Event) :
  (forall w, exists band w1 current w2 w4 new,
     get_upload_band env false w = (Return band, w1) /\
     eq_str band desired_band = false /\
     get_upload_band env false w1 = (Return current, w2) /\
     attempt env (logged env (using_msg current) w2) = (Return tt, w4) /\
     trace w4 = trace w ++ new /\ control_calls new = calls) ->
  forall fuel w, exists w',
    main_loop env fuel w = (Diverge, w') /\
    control_calls (trace w')
    = control_calls (trace w) ++ List.concat (repeat calls fuel).
Proof.
  intros Hround. induction fuel as [|fuel IH]; intros w.
  - exists w. split; [reflexivity|]. simpl. rewrite app_nil_r. reflexivity.
  - destruct (Hround w)
      as [band [w1 [current [w2 [w4 [new [Hget [Hne [Hcur [Hatt [Htr Hctl]]]]]]]]]]].
    destruct (IH w4) as [w' [Hrun Hcalls]].
    exists w'. split.
    + rewrite (main_loop_retry env fuel w w1 w2 w4 band current Hget Hne Hcur Hatt).
      exact Hrun.
    + rewrite Hcalls, Htr, control_calls_app, Hctl, <- app_assoc. reflexivity.
Qed.

Lemma round_never_attached (env : Env) :
  (forall k, band_field (signal env k) = Some None) ->
  forall w, exists band w1 current w2 w4 new,
    get_upload_band env false w = (Return band, w1) /\
    eq_str band desired_band = false /\
    get_upload_band env false w1 = (Return current, w2) /\
    attempt env (logged env (using_msg current) w2) = (Return tt, w4) /\
    trace w4 = trace w ++ new /\ control_calls new = corrective_unit.
Proof.
  intros Hnone w.
  set (w1 := after env ReadSignal w). set (w2 := after env ReadSignal w1).
  set (w3 := logged env (using_msg None) w2).
  destruct (force_band_setting_never_attached env upload_bands download_bands w3)
    as [w5 [new [Hfbs [Htr [Hctl _]]]]]; [simpl; lia|intros k _; apply Hnone|].
  destruct (attempt_spec env w3) as [_ [_ Hraise]].
  rewrite Hfbs in Hraise. cbn [fst snd] in Hraise.
  exists None, w1, None, w2, (logged env no_antenna_msg w5).
  eexists. split; [|split; [|split; [|split; [|split]]]].
  - rewrite get_upload_band_spec, Hnone. reflexivity.
  - reflexivity.
  - rewrite get_upload_band_spec, Hnone. reflexivity.
  - apply (Hraise NoAntenna1); reflexivity.
  - rewrite trace_logged, Htr. unfold w3. rewrite trace_logged.
    unfold w2, w1. rewrite !trace_after, <- !app_assoc. reflexivity.
  - cbn [app]. cbn [control_calls filter is_control].
    change (filter is_control (new ++ ?l)) with (control_calls (new ++ l)).
    rewrite control_calls_app, Hctl. reflexivity.
Qed.

Lemma round_mismatch (env : Env) (text : string) :
  (forall k, band_field (signal env k) = Some (Some text)) ->
  band_name text <> desired_band ->
  forall w, exists band w1 current w2 w4 new,
    get_upload_band env false w = (Return band, w1) /\
    eq_str band desired_band = false /\
    get_upload_band env false w1 = (Return current, w2) /\
    attempt env (logged env (using_msg current) w2) = (Return tt, w4) /\
    trace w4 = trace w ++ new /\
    control_calls new = [SetLteBand upload_bands; SetLteBand download_bands].
Proof.
  intros Hall Hother w.
  assert (Hne : (band_name text =? desired_band)%string = false)
    by (apply String.eqb_neq; exact Hother).
  set (w1 := after env ReadSignal w). set (w2 := after env ReadSignal w1).
  set (w3 := logged env (using_msg (Some (band_name text))) w2).
  destruct (force_band_setting_mismatch env upload_bands download_bands w3 text)
    as [w5 [new [Hfbs [Htr Hctl]]]];
    [simpl; lia|intros k _; apply Hall| |].
  { unfold contains, upload_bands. cbn [existsb].
    change (band_name text =? "B28")%string
      with (band_name text =? desired_band)%string.
    rewrite Hne. reflexivity. }
  destruct (attempt_spec env w3) as [_ [Hfalse _]].
  rewrite Hfbs in Hfalse. cbn [fst snd] in Hfalse.
  exists (Some (band_name text)), w1, (Some (band_name text)), w2,
    (logged env retrying_msg w5).
  eexists. split; [|split; [|split; [|split; [|split]]]].
  - rewrite get_upload_band_spec, Hall. reflexivity.
  - exact Hne.
  - rewrite get_upload_band_spec, Hall. reflexivity.
  - apply Hfalse. reflexivity.
  - rewrite trace_logged, Htr. unfold w3. rewrite trace_logged.
    unfold w2, w1. rewrite !trace_after, <- !app_assoc. reflexivity.
  - cbn [app]. cbn [control_calls filter is_control].
    change (filter is_control (new ++ ?l)) with (control_calls (new ++ l)).
    rewrite control_calls_app, Hctl. reflexivity.
Qed.

(** C8. The loop of [main] around [force_band_setting]:
    - a no-antenna error and a [False] result (band mismatch) of an attempt
      are logged and absorbed, and the loop test is then evaluated again;
    - the loop ends normally only when its test has read the desired band;
    - its only other outcomes are that it is still running after the given
      number of rounds, or the parse error of a telemetry read of the test:
      there is no outcome for exhausted retries;
    - there is no cap: with a router that never attaches, or that stays on
      another band, the loop is still running after any number of rounds and
      has made one attempt per round. *)
Theorem retry_without_cap (env : Env) (fuel : nat) (w : World) :
  (let out := force_band_setting env upload_bands download_bands w in
   (fst out = Raise NoAntenna1 \/ fst out = Raise NoAntenna2 ->
    attempt env w = (Return tt, logged env no_antenna_msg (snd out))) /\
   (fst out = Return false ->
    attempt env w = (Return tt, logged env retrying_msg (snd out)))) /\
  (forall band w1 current w2 w4,
     get_upload_band env false w = (Return band, w1) ->
     eq_str band desired_band = false ->
     get_upload_band env false w1 = (Return current, w2) ->
     attempt env (logged env (using_msg current) w2) = (Return tt, w4) ->
     main_loop env (S fuel) w = main_loop env fuel w4) /\
  (forall w',
     main_loop env fuel w = (Return tt, w') ->
     exists w1, get_upload_band env false w1 = (Return (Some desired_band), w')) /\
  (fst (main_loop env fuel w) = Return tt \/
   fst (main_loop env fuel w) = Raise ParseError \/
   fst (main_loop env fuel w) = Diverge) /\
  ((forall k, band_field (signal env k) = Some None) ->
   exists w',
     main_loop env fuel w = (Diverge, w') /\
     control_calls (trace w')
     = control_calls (trace w) ++ List.concat (repeat corrective_unit fuel)) /\
  (forall text,
     (forall k, band_field (signal env k) = Some (Some text)) ->
     band_name text <> desired_band ->
     exists w',
       main_loop env fuel w = (Diverge, w') /\
       control_calls (trace w')
       = control_calls (trace w)
         ++ List.concat
              (repeat [SetLteBand upload_bands; SetLteBand download_bands] fuel)).
Proof.
  split; [|split; [|split; [|split; [|split]]]].
  - cbv zeta. destruct (attempt_spec env w) as [_ [Hfalse Hraise]].
    split; [|exact Hfalse].
    intros [H|H]; apply (Hraise _ H); reflexivity.
  - intros band w1 current w2 w4. apply main_loop_retry.
  - apply main_loop_exit_only.
  - apply main_loop_outcomes.
  - intros Hnone.
    apply (main_loop_unbounded env corrective_unit (round_never_attached env Hnone)).
  - intros text Hall Hother.
    apply (main_loop_unbounded env _ (round_mismatch env text Hall Hother)).
Qed.

Lemma retry_without_cap_witness :
  (exists w',
     main_loop (steady (telemetry None)) 3 w0 = (Diverge, w') /\
     control_calls (trace w')
     = control_calls (trace w0) ++ List.concat (repeat corrective_unit 3)) /\
  (exists w',
     main_loop (steady (telemetry (Some "3"))) 3 w0 = (Diverge, w') /\
     control_calls (trace w')
     = control_calls (trace w0)
       ++ List.concat
            (repeat [SetLteBand upload_bands; SetLteBand download_bands] 3)).
Proof.
  split.
  - apply (proj1 (proj2 (proj2 (proj2 (proj2
             (retry_without_cap (steady (telemetry None)) 3 w0)))))).
    intros k. reflexivity.
  - apply (proj2 (proj2 (proj2 (proj2 (proj2
             (retry_without_cap (steady (telemetry (Some "3"))) 3 w0)))))
             "3").
    + intros k. reflexivity.
    + discriminate.
Defined.

(** ** Error kinds *)

(** Against C1 as stated: the timeout error, the parse error and the
    no-antenna error are raised with one and the same class, the generic
    [RuntimeError]. *)
Lemma error_kinds_coincide :
  kind (fst (wait_for_connection (steady (telemetry None)) 121 w0))
  = Some RuntimeError /\
  kind (fst (get_upload_band (steady telemetry_no_band) false w0))
  = Some RuntimeError /\
  kind (fst (force_band_setting (steady (telemetry None)) ["B28"] download_bands w0))
  = Some RuntimeError.
Proof. vm_compute. repeat split. Qed.

Lemma error_messages_distinct (timeout : Z) :
  NoDup (map exc_msg (error_conditions timeout)).
Proof.
  unfold error_conditions. cbn [map exc_msg ConfigError ParseError
    UnsupportedConfiguration NoAntenna1 NoAntenna2].
  repeat constructor; cbn [In]; intros H;
    repeat (destruct H as [H|H]; [simpl in H; inversion H|]); exact H.
Qed.

(** C1 (amended). The four conditions are raised as exceptions: the timeout
    error, the parse error and the no-antenna errors all with the class
    [RuntimeError], the unsupported-configuration error with its subclass
    [NotImplementedError].  Their messages are pairwise distinct, so the
    message tells them apart, but the class does not, and the [except
    RuntimeError] clause of [main] handles every one of them alike. *)
Theorem error_conditions_share_runtime_error (env : Env) (timeout : Z)
    (ul dl : list string) (w : World) :
  (120 < timeout ->
   fst (wait_for_connection env timeout w) = Raise (ConfigError timeout)) /\
  (band_field (signal env (steps w)) = None ->
   fst (get_upload_band env false w) = Raise ParseError) /\
  ((1 < List.length ul)%nat ->
   fst (force_band_setting env ul dl w) = Raise UnsupportedConfiguration) /\
  ((List.length ul <= 1)%nat ->
   (forall k, (steps w <= k)%nat -> band_field (signal env k) = Some None) ->
   fst (force_band_setting env ul dl w) = Raise NoAntenna1) /\
  map exc_class (error_conditions timeout)
  = [RuntimeError; RuntimeError; NotImplementedError; RuntimeError; RuntimeError] /\
  NoDup (map exc_msg (error_conditions timeout)) /\
  (forall e, In e (error_conditions timeout) ->
     issubclass (exc_class e) RuntimeError = true /\
     forall w1,
       force_band_setting env upload_bands download_bands w = (Raise e, w1) ->
       attempt env w = (Return tt, logged env no_antenna_msg w1)).
Proof.
  split; [|split; [|split; [|split; [|split; [|split]]]]].
  - intros Ht. rewrite wait_for_connection_too_large by exact Ht. reflexivity.
  - intros Hfield. rewrite get_upload_band_spec, Hfield. reflexivity.
  - intros Hlen. unfold force_band_setting.
    destruct (Nat.ltb_spec 1 (List.length ul)) as [_|Hle]; [reflexivity|lia].
  - intros Hlen Hnone.
    destruct (force_band_setting_never_attached env ul dl w Hlen Hnone)
      as [w' [new [Hrun _]]].
    rewrite Hrun. reflexivity.
  - reflexivity.
  - apply error_messages_distinct.
  - intros e Hin.
    assert (Hsub : issubclass (exc_class e) RuntimeError = true).
    { unfold error_conditions in Hin. cbn [In] in Hin.
      destruct Hin as [H|[H|[H|[H|[H|[]]]]]]; subst e; reflexivity. }
    split; [exact Hsub|].
    intros w1 Hrun. destruct (attempt_spec env w) as [_ [_ Hraise]].
    rewrite Hrun in Hraise. apply (Hraise e); [reflexivity|exact Hsub].
Qed.

Lemma error_conditions_share_runtime_error_witness :
  fst (wait_for_connection (steady (telemetry None)) 121 w0)
  = Raise (ConfigError 121) /\
  fst (get_upload_band (steady telemetry_no_band) false w0) = Raise ParseError /\
  fst (force_band_setting (steady (telemetry None)) ["B28"; "B3"] download_bands w0)
  = Raise UnsupportedConfiguration /\
  fst (force_band_setting (steady (telemetry None)) ["B28"] download_bands w0)
  = Raise NoAntenna1.
Proof.
  split; [|split; [|split]].
  - apply (proj1 (error_conditions_share_runtime_error
                    (steady (telemetry None)) 121 ["B28"] download_bands w0)).
    lia.
  - apply (proj1 (proj2 (error_conditions_share_runtime_error
                    (steady telemetry_no_band) 121 ["B28"] download_bands w0))).
    reflexivity.
  - apply (proj1 (proj2 (proj2 (error_conditions_share_runtime_error
                    (steady (telemetry None)) 121 ["B28"; "B3"] download_bands w0)))).
    simpl. lia.
  - apply (proj1 (proj2 (proj2 (proj2 (error_conditions_share_runtime_error
                    (steady (telemetry None)) 121 ["B28"] download_bands w0))))).
    + simpl. lia.
    + intros k _. reflexivity.
Defined.

(** ** More on [wait_for_connection] *)






(** ** The paths through [force_band_setting] *)

(** The four ways a run with at most one upload band goes: the baseline
    phase fails; the band cannot be read; the band is an upload band; the
    bands are reconfigured. *)
Lemma force_band_setting_paths (env : Env) (ul dl : list string) (w : World) r w' :
  (List.length ul <= 1)%nat ->
  force_band_setting env ul dl w = (r, w') ->
  (exists e, acquire_baseline env w = (Raise e, w') /\ r = Raise e) \/
  (exists w1,
     acquire_baseline env w = (Return tt, w1) /\
     ((get_upload_band env false w1 = (Raise ParseError, w') /\
       w' = after env ReadSignal w1 /\ r = Raise ParseError) \/
      (exists band,
         get_upload_band env false w1 = (Return band, after env ReadSignal w1) /\
         ((contains ul band = true /\ r = Return true /\
           w' = after env ReadSignal w1) \/
          (contains ul band = false /\
           reconfigure env ul dl (after env ReadSignal w1) = (r, w')))))).
Proof.
  intros Hlen Hrun.
  rewrite force_band_setting_phases in Hrun by exact Hlen.
  rewrite bind_unfold in Hrun.
  destruct (acquire_baseline env w) as [r1 w1] eqn:Hbase.
  pose proof Hbase as Hspec. apply acquire_baseline_spec in Hspec.
  destruct Hspec as [_ [new [_ [_ [H|[H|H]]]]]]; subst r1.
  - right. exists w1. split; [reflexivity|].
    rewrite bind_unfold in Hrun.
    destruct (get_upload_band_cases env w1) as [[band Hget]|Hget];
      rewrite Hget in Hrun.
    + right. exists band. split; [exact Hget|].
      destruct (contains ul band).
      * left. inversion Hrun; subst r w'. repeat split.
      * right. split; [reflexivity|exact Hrun].
    + left. inversion Hrun; subst r w'. split; [exact Hget|split; reflexivity].
  - left. exists NoAntenna1. inversion Hrun; subst. split; reflexivity.
  - left. exists ParseError. inversion Hrun; subst. split; reflexivity.
Qed.



(** X5. The control calls of any run of [force_band_setting] with at most
    one upload band are: at most one corrective unit (mode reset to 4G, data
    switch off, data switch on), followed by at most one pair of band calls
    (upload list, then download list).  [False] and the second no-antenna
    error come only after the pair of band calls; the first no-antenna error
    only without it. *)
Theorem force_band_setting_control_calls (env : Env) (ul dl : list string)
    (w : World) :
  (List.length ul <= 1)%nat ->
  let out := force_band_setting env ul dl w in
  exists new reset pair,
    trace (snd out) = trace w ++ new /\
    control_calls new = reset ++ pair /\
    (reset = [] \/ reset = [SetNetworkMode "4G"; SetDataSwitchOff; SetDataSwitchOn]) /\
    (pair = [] \/ pair = [SetLteBand ul; SetLteBand dl]) /\
    (fst out = Return false \/ fst out = Raise NoAntenna2 ->
     pair = [SetLteBand ul; SetLteBand dl]) /\
    (fst out = Raise NoAntenna1 -> pair = []).
Proof.
  intros Hlen. cbv zeta.
  destruct (force_band_setting env ul dl w) as [r w'] eqn:Hrun. cbn [fst snd].
  destruct (force_band_setting_paths env ul dl w r w' Hlen Hrun)
    as [[e [Hbase Hr]]|[w1 [Hbase Hrest]]];
    apply acquire_baseline_spec in Hbase;
    destruct Hbase as [_ [new1 [Htr1 [Hunit Hres]]]].
  - exists new1, (control_calls new1), []. rewrite app_nil_r.
    split; [exact Htr1|]. split; [reflexivity|]. split; [exact Hunit|].
    split; [left; reflexivity|]. subst r.
    split; [|reflexivity].
    destruct Hres as [H|[H|H]]; inversion H; subst e; intros [H'|H']; discriminate.
  - destruct Hrest as [[_ [Hw' Hr]]|[band [_ [[_ [Hr Hw']]|[_ Hrec]]]]].
    + subst w' r. exists (new1 ++ [ReadSignal]), (control_calls new1), [].
      rewrite app_nil_r, control_calls_app, app_nil_r.
      split; [rewrite trace_after, Htr1, app_assoc; reflexivity|].
      split; [reflexivity|]. split; [exact Hunit|]. split; [left; reflexivity|].
      split; [intros [H|H]; discriminate|reflexivity].
    + subst w' r. exists (new1 ++ [ReadSignal]), (control_calls new1), [].
      rewrite app_nil_r, control_calls_app, app_nil_r.
      split; [rewrite trace_after, Htr1, app_assoc; reflexivity|].
      split; [reflexivity|]. split; [exact Hunit|]. split; [left; reflexivity|].
      split; [intros [H|H]; discriminate|reflexivity].
    + apply reconfigure_spec in Hrec.
      destruct Hrec as [_ [new2 [Htr2 [Hquiet Hcases]]]].
      exists (new1 ++ [ReadSignal] ++ [SetLteBand ul; SetLteBand dl] ++ new2),
        (control_calls new1), [SetLteBand ul; SetLteBand dl].
      split; [rewrite Htr2, trace_after, Htr1, <- !app_assoc; reflexivity|].
      split.
      { rewrite !control_calls_app, Hquiet, app_nil_r. reflexivity. }
      split; [exact Hunit|]. split; [right; reflexivity|].
      split; [reflexivity|].
      destruct Hcases as [[H _]|[[w4 [band' [_ [_ H]]]]|H]]; subst r; discriminate.
Qed.

Lemma force_band_setting_control_calls_witness :
  exists new reset pair,
    trace (snd (force_band_setting retuned ["B28"] download_bands w0))
    = trace w0 ++ new /\
    control_calls new = reset ++ pair /\
    (reset = [] \/ reset = [SetNetworkMode "4G"; SetDataSwitchOff; SetDataSwitchOn]) /\
    (pair = [] \/ pair = [SetLteBand ["B28"]; SetLteBand download_bands]) /\
    (fst (force_band_setting retuned ["B28"] download_bands w0) = Return false \/
     fst (force_band_setting retuned ["B28"] download_bands w0) = Raise NoAntenna2 ->
     pair = [SetLteBand ["B28"]; SetLteBand download_bands]) /\
    (fst (force_band_setting retuned ["B28"] download_bands w0) = Raise NoAntenna1 ->
     pair = []).
Proof.
  apply (force_band_setting_control_calls retuned ["B28"] download_bands w0).
  simpl. lia.
Defined.

Lemma true_after_matching_read (env : Env) (ul dl : list string) (w w' : World) :
  (List.length ul <= 1)%nat ->
  force_band_setting env ul dl w = (Return true, w') ->
  exists w1 band,
    get_upload_band env false w1 = (Return band, w') /\
    contains ul band = true /\
    trace w' = trace w1 ++ [ReadSignal].
Proof.
  intros Hlen Hrun.
  destruct (force_band_setting_paths env ul dl w _ w' Hlen Hrun)
    as [[e [_ Hr]]|[w1 [_ [[_ [_ Hr]]|[band [Hget [[Hin [_ Hw']]|[Hout Hrec]]]]]]]];
    try discriminate.
  - subst w'. exists w1, band. repeat split; assumption.
  - pose proof Hrec as Hspec. apply reconfigure_spec in Hspec.
    destruct Hspec as [_ [new [_ [_ [[H _]|[[w4 [band' [_ [Hget' H]]]]|H]]]]]];
      try discriminate.
    exists w4, band'. split; [exact Hget'|]. split; [inversion H; reflexivity|].
    pose proof (get_upload_band_spec env false w4) as Hspec.
    rewrite Hget' in Hspec. inversion Hspec. reflexivity.
Qed.

(** X6. [force_band_setting] returns [True] only straight after a telemetry
    read that reported one of the upload bands: the last interaction of the
    run is that read. *)
Theorem true_only_after_matching_read (env : Env) (ul dl : list string)
    (w w' : World) :
  (List.length ul <= 1)%nat ->
  force_band_setting env ul dl w = (Return true, w') ->
  exists w1 band,
    get_upload_band env false w1 = (Return band, w') /\
    contains ul band = true /\
    trace w' = trace w1 ++ [ReadSignal].
Proof. exact (true_after_matching_read env ul dl w w'). Qed.

Lemma true_only_after_matching_read_witness :
  exists w1 band,
    get_upload_band retuned false w1
    = (Return band, snd (force_band_setting retuned ["B28"] download_bands w0)) /\
    contains ["B28"] band = true /\
    trace (snd (force_band_setting retuned ["B28"] download_bands w0))
    = trace w1 ++ [ReadSignal].
Proof.
  apply (true_only_after_matching_read retuned ["B28"] download_bands w0).
  - simpl. lia.
  - vm_compute. reflexivity.
Defined.

(** X7. With an empty list of upload bands [force_band_setting] never
    returns [True]: no band is a member of the empty list, so every run that
    reads a band goes on to set the bands, first to the empty list. *)
Theorem empty_upload_list_never_true (env : Env) (dl : list string) (w : World) :
  fst (force_band_setting env [] dl w) <> Return true /\
  (forall w1 band,
     acquire_baseline env w = (Return tt, w1) ->
     get_upload_band env false w1 = (Return band, after env ReadSignal w1) ->
     exists new,
       trace (snd (force_band_setting env [] dl w))
       = trace w1 ++ [ReadSignal; SetLteBand []; SetLteBand dl] ++ new /\
       control_calls new = []).
Proof.
  assert (Hlen : (List.length (@nil string) <= 1)%nat) by (simpl; lia).
  split.
  - destruct (force_band_setting env [] dl w) as [r w'] eqn:Hrun. cbn [fst].
    intros Hr. subst r.
    destruct (true_after_matching_read env [] dl w w' Hlen Hrun)
      as [w1 [band [_ [Hin _]]]].
    destruct band; discriminate.
  - intros w1 band Hbase Hget.
    destruct (reconfigure env [] dl (after env ReadSignal w1)) as [r w'] eqn:Hrec.
    assert (Hrun : force_band_setting env [] dl w = (r, w')).
    { rewrite force_band_setting_phases by exact Hlen.
      rewrite (bind_return _ _ _ _ _ Hbase).
      rewrite (bind_return _ _ _ _ _ Hget). cbv beta.
      replace (contains [] band) with false by (destruct band; reflexivity).
      exact Hrec. }
    rewrite Hrun. cbn [snd].
    apply reconfigure_spec in Hrec.
    destruct Hrec as [_ [new [Htr [Hquiet _]]]].
    exists new. split; [|exact Hquiet].
    rewrite Htr, trace_after, <- app_assoc. reflexivity.
Qed.

Lemma empty_upload_list_never_true_witness :
  exists new,
    trace (snd (force_band_setting (steady (telemetry (Some "28"))) []
                  download_bands w0))
    = trace (polled_once (steady (telemetry (Some "28")))
               (polled_once (steady (telemetry (Some "28"))) w0))
      ++ [ReadSignal; SetLteBand []; SetLteBand download_bands] ++ new /\
    control_calls new = [].
Proof.
  apply (proj2 (empty_upload_list_never_true (steady (telemetry (Some "28")))
                  download_bands w0)
           (polled_once (steady (telemetry (Some "28")))
              (polled_once (steady (telemetry (Some "28"))) w0))
           (Some "B28")).
  - vm_compute. reflexivity.
  - vm_compute. reflexivity.
Defined.

(** X8. When the first connectivity test fails, the corrective unit brings
    the router back and the band read then is an upload band,
    [force_band_setting] returns [True]; its control calls are exactly the
    corrective unit, and no band call is made. *)
Theorem recovery_then_already_correct (env : Env) (ul dl : list string)
    (w w1 w2 w3 : World) (band : option string) :
  (List.length ul <= 1)%nat ->
  wait_for_connection env connection_timeout w = (Return false, w1) ->
  wait_for_connection env connection_timeout (recovered env w1) = (Return true, w2) ->
  get_upload_band env false w2 = (Return band, w3) ->
  contains ul band = true ->
  force_band_setting env ul dl w = (Return true, w3) /\
  exists new,
    trace w3 = trace w ++ new /\
    control_calls new = [SetNetworkMode "4G"; SetDataSwitchOff; SetDataSwitchOn].
Proof.
  intros Hlen H1 H2 Hget Hin. split.
  - rewrite force_band_setting_phases by exact Hlen.
    assert (Hbase : acquire_baseline env w = (Return tt, w2)).
    { unfold acquire_baseline.
      rewrite (bind_return _ _ _ _ _ H1). cbv beta. rewrite not_false.
      rewrite (bind_return _ _ _ _ _ (recovery_spec env w1)).
      rewrite (bind_return _ _ _ _ _ H2). cbv beta. rewrite not_true.
      reflexivity. }
    rewrite (bind_return _ _ _ _ _ Hbase).
    rewrite (bind_return _ _ _ _ _ Hget). cbv beta. rewrite Hin. reflexivity.
  - apply wait_for_connection_polls in H1; [|unfold connection_timeout; lia].
    apply wait_for_connection_polls in H2; [|unfold connection_timeout; lia].
    destruct H1 as [_ [new1 [Htr1 [Hq1 _]]]].
    destruct H2 as [_ [new2 [Htr2 [Hq2 _]]]].
    destruct (recovered_trace env w1) as [_ [newr [Htrr [Hqr _]]]].
    pose proof (get_upload_band_spec env false w2) as Hspec.
    rewrite Hget in Hspec. inversion Hspec as [[Hres Hw3]].
    exists (new1 ++ newr ++ new2 ++ [ReadSignal]). split.
    + rewrite trace_after, Htr2, Htrr, Htr1, <- !app_assoc. reflexivity.
    + rewrite !control_calls_app, Hq1, Hqr, Hq2. reflexivity.
Qed.

Lemma recovery_then_already_correct_witness :
  force_band_setting (attached_from 70) ["B28"] download_bands w0
  = (Return true,
     snd (get_upload_band (attached_from 70) false
            (snd (wait_for_connection (attached_from 70) connection_timeout
                    (recovered (attached_from 70)
                       (snd (wait_for_connection (attached_from 70)
                               connection_timeout w0))))))) /\
  exists new,
    trace (snd (get_upload_band (attached_from 70) false
                  (snd (wait_for_connection (attached_from 70) connection_timeout
                          (recovered (attached_from 70)
                             (snd (wait_for_connection (attached_from 70)
                                     connection_timeout w0)))))))
    = trace w0 ++ new /\
    control_calls new = [SetNetworkMode "4G"; SetDataSwitchOff; SetDataSwitchOn].
Proof.
  apply (recovery_then_already_correct (attached_from 70) ["B28"] download_bands
           w0
           (snd (wait_for_connection (attached_from 70) connection_timeout w0))
           (snd (wait_for_connection (attached_from 70) connection_timeout
                   (recovered (attached_from 70)
                      (snd (wait_for_connection (attached_from 70)
                              connection_timeout w0)))))
           (snd (get_upload_band (attached_from 70) false
                   (snd (wait_for_connection (attached_from 70) connection_timeout
                           (recovered (attached_from 70)
                              (snd (wait_for_connection (attached_from 70)
                                      connection_timeout w0)))))))
           (Some "B28")).
  - simpl. lia.
  - vm_compute. reflexivity.
  - vm_compute. reflexivity.
  - vm_compute. reflexivity.
  - reflexivity.
Defined.

(** ** The process [main] *)

Lemma pbind_go {A B} (m : P A) (k : A -> P B) (p : Process) a p' :
  m p = (Go a, p') -> pbind m k p = k a p'.
Proof. intros H. unfold pbind. rewrite H. reflexivity. Qed.

Lemma pbind_stop {A B} (m : P A) (k : A -> P B) (p : Process) e p' :
  m p = (Stop e, p') -> pbind m k p = (Stop e, p').
Proof. intros H. unfold pbind. rewrite H. reflexivity. Qed.

Lemma lift_go {A} (m : M A) (w : World) sess a w' :
  m w = (Return a, w') ->
  lift m (mkProcess w sess) = (Go a, mkProcess w' sess).
Proof. intros H. unfold lift. cbn [world session]. rewrite H. reflexivity. Qed.

Lemma lift_raise {A} (m : M A) (w : World) sess e w' :
  m w = (Raise e, w') ->
  lift m (mkProcess w sess) = (@Stop A (Crashed e), mkProcess w' sess).
Proof. intros H. unfold lift. cbn [world session]. rewrite H. reflexivity. Qed.

Lemma lift_diverge {A} (m : M A) (w : World) sess w' :
  m w = (Diverge, w') ->
  lift m (mkProcess w sess) = (@Stop A Running, mkProcess w' sess).
Proof. intros H. unfold lift. cbn [world session]. rewrite H. reflexivity. Qed.

Lemma session_call_spec (env : Answers) (c : SessionCall) (p : Process) :
  session_call env c p = (Go tt, entered env c p).
Proof. reflexivity. Qed.

(** The statements of [main] before the first connectivity test. *)
Lemma main_opening {B} (env : Answers) (k : P B) (w : World) sess :
  (lift (logger env ("Router " ++ router_name ++ ": Starting monitoring.")) ;;
   session_call env (Create router_ip) ;;
   session_call env (Login router_login router_password) ;;
   k)%proc (mkProcess w sess)
  = k (opened env (mkProcess w sess)).
Proof.
  rewrite (pbind_go _ _ _ _ _ (lift_go _ _ _ _ _ (logger_spec env _ w))).
  rewrite (pbind_go _ _ _ _ _ (session_call_spec env _ _)).
  rewrite (pbind_go _ _ _ _ _ (session_call_spec env _ _)).
  reflexivity.
Qed.

(** The statements of [main] from the band test on, in the world [w]
    reached by the telemetry read of the test. *)
Lemma main_ending (env : Answers) (str_datetime : Z -> string) (fuel : nat)
    (band : option string) (w : World) sess :
  ((if eq_str band desired_band then
      lift (logger env ("Router " ++ router_name ++ " is properly set up, exiting.")) ;;
      session_call env Logout ;;
      sys_exit
    else pret tt) ;;
   lift (main_loop env fuel) ;;
   lift (logger env ("Router " ++ router_name ++ " is properly set up.")) ;;
   session_call env Logout ;;
   t <- lift (datetime_now env) ;;
   lift (logger env ("Stopping at " ++ str_datetime t)))%proc (mkProcess w sess)
  = if eq_str band desired_band then
      (Stop (Exited 0), left_early env sess w)
    else
      match main_loop env fuel w with
      | (Return _, w') => (Go tt, closed env str_datetime sess w')
      | (Raise e, w') => (Stop (Crashed e), mkProcess w' sess)
      | (Diverge, w') => (Stop Running, mkProcess w' sess)
      end.
Proof.
  destruct (eq_str band desired_band).
  - apply pbind_stop.
    rewrite (pbind_go _ _ _ _ _ (lift_go _ _ _ _ _ (logger_spec env _ w))).
    rewrite (pbind_go _ _ _ _ _ (session_call_spec env _ _)).
    reflexivity.
  - rewrite (pbind_go _ _ _ tt (mkProcess w sess) eq_refl).
    destruct (main_loop env fuel w) as [[[]|e|] w'] eqn:Hloop.
    + rewrite (pbind_go _ _ _ _ _ (lift_go _ _ _ _ _ Hloop)).
      rewrite (pbind_go _ _ _ _ _ (lift_go _ _ _ _ _ (logger_spec env _ w'))).
      rewrite (pbind_go _ _ _ _ _ (session_call_spec env _ _)).
      unfold entered at 1. cbn [world session].
      rewrite (pbind_go _ _ _ _ _ (lift_go _ _ _ _ _ (datetime_now_spec env _))).
      rewrite (lift_go _ _ _ _ _ (logger_spec env _ _)).
      reflexivity.
    + apply pbind_stop. apply lift_raise. exact Hloop.
    + apply pbind_stop. apply lift_diverge. exact Hloop.
Qed.

(** The runs of [main], by the answers of its first connectivity test, its
    band test and its loop. *)
Lemma main_cases (env : Answers) (str_datetime : Z -> string) (fuel : nat)
    (w : World) sess :
  let p1 := opened env (mkProcess w sess) in
  main env str_datetime fuel (mkProcess w sess)
  = match wait_for_connection env 1 (world p1) with
    | (Raise e, w2) => (Crashed e, mkProcess w2 (session p1))
    | (Diverge, w2) => (Running, mkProcess w2 (session p1))
    | (Return connected, w2) =>
        let w3 := if connected then w2 else logged env not_connected_msg w2 in
        match get_upload_band env false w3 with
        | (Raise e, w4) => (Crashed e, mkProcess w4 (session p1))
        | (Diverge, w4) => (Running, mkProcess w4 (session p1))
        | (Return band, w4) =>
            if eq_str band desired_band then
              (Exited 0, left_early env (session p1) w4)
            else
              match main_loop env fuel w4 with
              | (Return _, w5) => (Finished, closed env str_datetime (session p1) w5)
              | (Raise e, w5) => (Crashed e, mkProcess w5 (session p1))
              | (Diverge, w5) => (Running, mkProcess w5 (session p1))
              end
        end
    end.
Proof.
  cbv zeta. unfold main. rewrite main_opening.
  set (p1 := opened env (mkProcess w sess)).
  assert (Hp1 : p1 = mkProcess (world p1) (session p1)) by reflexivity.
  rewrite Hp1 at 1.
  destruct (wait_for_connection env 1 (world p1)) as [[connected| e|] w2] eqn:Hwait.
  - rewrite (pbind_go _ _ _ _ _ (lift_go _ _ _ _ _ Hwait)).
    assert (Hnote :
      (if negb connected then lift (logger env not_connected_msg) else pret tt)
        (mkProcess w2 (session p1))
      = (Go tt, mkProcess (if connected then w2 else logged env not_connected_msg w2)
                  (session p1))).
    { destruct connected; [reflexivity|].
      rewrite not_false. apply lift_go. apply logger_spec. }
    unfold not_connected_msg in Hnote at 1.
    rewrite (pbind_go _ _ _ _ _ Hnote).
    set (w3 := if connected then w2 else logged env not_connected_msg w2).
    destruct (get_upload_band env false w3) as [[band| e|] w4] eqn:Hget.
    + rewrite (pbind_go _ _ _ _ _ (lift_go _ _ _ _ _ Hget)).
      rewrite main_ending.
      destruct (eq_str band desired_band); [reflexivity|].
      destruct (main_loop env fuel w4) as [[[]|e|] w5]; reflexivity.
    + rewrite (pbind_stop _ _ _ _ _ (lift_raise _ _ _ _ _ Hget)). reflexivity.
    + rewrite (pbind_stop _ _ _ _ _ (lift_diverge _ _ _ _ Hget)). reflexivity.
  - rewrite (pbind_stop _ _ _ _ _ (lift_raise _ _ _ _ _ Hwait)). reflexivity.
  - rewrite (pbind_stop _ _ _ _ _ (lift_diverge _ _ _ _ Hwait)). reflexivity.
Qed.

Lemma session_opened (env : Answers) (w : World) sess :
  session (opened env (mkProcess w sess))
  = sess ++ [(steps w + 2, Create router_ip);
             (steps w + 3, Login router_login router_password)]%nat.
Proof.
  unfold opened, entered. cbn [world session steps logged after after_clock].
  rewrite <- app_assoc. cbn [app].
  replace (steps w + 2)%nat with (S (S (steps w))) by lia.
  replace (steps w + 3)%nat with (S (S (S (steps w)))) by lia.
  reflexivity.
Qed.

Lemma trace_opened (env : Answers) (w : World) sess :
  trace (world (opened env (mkProcess w sess)))
  = trace w ++ [Log (now (after_clock env w)) starting_msg].
Proof. reflexivity. Qed.

Lemma steps_opened (env : Answers) (w : World) sess :
  steps (world (opened env (mkProcess w sess))) = (steps w + 4)%nat.
Proof.
  unfold opened, entered. cbn [world session steps logged after after_clock]. lia.
Qed.

Lemma main_loop_raises_parse_error (env : Answers) (fuel : nat) (w w' : World) e :
  main_loop env fuel w = (Raise e, w') -> e = ParseError.
Proof.
  intros H. destruct (main_loop_outcomes env fuel w) as [Ho|[Ho|Ho]];
    rewrite H in Ho; cbn [fst] in Ho; inversion Ho. reflexivity.
Qed.

Lemma get_upload_band_raises_parse_error (env : Answers) (w w' : World) e :
  get_upload_band env false w = (Raise e, w') -> e = ParseError.
Proof.
  intros H. destruct (get_upload_band_cases env w) as [[band Hc]|Hc];
    rewrite H in Hc; inversion Hc. reflexivity.
Qed.

(** X9. The session calls of [main], whatever the clock does.  Every run
    first creates the router object and logs in, as its third and fourth
    interaction.  It logs out, once and as its last session call, exactly
    when it ends by returning or through [sys.exit].  When an exception
    escapes, or while the loop is still running, the session has not been
    closed; the exception is the parse error of a telemetry read, or the
    [UnboundLocalError] of the first connectivity test, which needs the
    sixth interaction of the run, the clock read of the first deadline
    test, to come more than one second after the fifth. *)
Theorem main_session_calls (env : Answers) (str_datetime : Z -> string)
    (fuel : nat) (p : Process) :
  let out := main env str_datetime fuel p in
  exists tail,
    session (snd out)
    = session p
      ++ [(steps (world p) + 2, Create router_ip);
          (steps (world p) + 3, Login router_login router_password)]%nat
      ++ tail /\
    match fst out with
    | Finished => exists k, tail = [(k, Logout)]
    | Exited status => status = 0 /\ exists k, tail = [(k, Logout)]
    | Crashed e =>
        (e = ParseError \/
         (exc_class e = UnboundLocalError /\
          1 * second < Z.of_N (clock_lag env (steps (world p) + 5)))) /\
        tail = []
    | Running => tail = []
    end.
Proof.
  destruct p as [w sess]. cbv zeta. cbn [world session].
  rewrite main_cases. cbv zeta.
  pose proof (session_opened env w sess) as Hsess.
  pose proof (steps_opened env w sess) as Hsteps.
  set (p1 := opened env (mkProcess w sess)) in *.
  destruct (wait_for_connection env 1 (world p1)) as [[connected|e|] w2] eqn:Hwait.
  - set (w3 := if connected then w2 else logged env not_connected_msg w2).
    destruct (get_upload_band env false w3) as [[band|e|] w4] eqn:Hget.
    + destruct (eq_str band desired_band).
      * eexists. cbn [fst snd]. split.
        -- unfold left_early, entered. cbn [session]. rewrite Hsess, <- app_assoc.
           reflexivity.
        -- split; [reflexivity|]. eexists. reflexivity.
      * destruct (main_loop env fuel w4) as [[[]|e|] w5] eqn:Hloop; cbn [fst snd].
        -- eexists. split.
           ++ unfold closed, entered. cbn [session]. rewrite Hsess, <- app_assoc.
              reflexivity.
           ++ eexists. reflexivity.
        -- exists []. rewrite app_nil_r. cbn [session].
           split; [exact Hsess|]. split; [left|reflexivity].
           exact (main_loop_raises_parse_error _ _ _ _ _ Hloop).
        -- exists []. rewrite app_nil_r. cbn [session]. split; [exact Hsess|reflexivity].
    + exists []. rewrite app_nil_r. cbn [fst snd session]. split; [exact Hsess|].
      split; [left|reflexivity].
      exact (get_upload_band_raises_parse_error _ _ _ _ Hget).
    + exists []. rewrite app_nil_r. cbn [fst snd session]. split; [exact Hsess|reflexivity].
  - exists []. rewrite app_nil_r. cbn [fst snd session]. split; [exact Hsess|].
    split; [|reflexivity].
    destruct (wait_for_connection_any_clock env 1 (world p1))
      as [r [w' [Hrun Hr]]]; [lia|].
    rewrite Hwait in Hrun. inversion Hrun; subst r w'.
    destruct Hr as [H|[H|[H|[H Hlag]]]]; try discriminate H.
    + left. inversion H. reflexivity.
    + right. inversion H. split; [reflexivity|].
      rewrite Hsteps in Hlag.
      replace (steps w + 5)%nat with (S (steps w + 4)) by lia. exact Hlag.
  - exists []. rewrite app_nil_r. cbn [fst snd session]. split; [exact Hsess|reflexivity].
Qed.

(** X10. When [main] leaves through [sys.exit], the exit status is 0, the
    run does not depend on the rounds granted to the loop (the loop is never
    entered), no control call has been made, and the last two interactions
    recorded are the telemetry read of the band test and the line logged
    before the exit. *)
Theorem main_early_exit (env : Env) (str_datetime : Z -> string) (fuel : nat)
    (p : Process) (status : Z) :
  fst (main env str_datetime fuel p) = Exited status ->
  status = 0 /\
  (forall fuel', main env str_datetime fuel' p = main env str_datetime fuel p) /\
  control_calls (trace (world (snd (main env str_datetime fuel p))))
  = control_calls (trace (world p)) /\
  exists before stamp,
    trace (world (snd (main env str_datetime fuel p)))
    = before ++ [ReadSignal; Log stamp exiting_msg].
Proof.
  destruct p as [w sess]. cbn [world].
  assert (Hall : forall f, main env str_datetime f (mkProcess w sess) = _)
    by (intros f; apply main_cases).
  intros Hexit. rewrite (Hall fuel) in Hexit |- *. cbv zeta in *.
  assert (Huniform : forall f,
            main env str_datetime f (mkProcess w sess) = _) by exact Hall.
  pose proof (trace_opened env w sess) as Htr1.
  set (p1 := opened env (mkProcess w sess)) in *.
  destruct (wait_for_connection env 1 (world p1)) as [[connected|e|] w2] eqn:Hwait;
    try discriminate Hexit.
  apply wait_for_connection_polls in Hwait; [|lia].
  destruct Hwait as [_ [new [Htr2 [Hquiet _]]]].
  set (w3 := if connected then w2 else logged env not_connected_msg w2) in *.
  assert (Htr3 : exists new3, trace w3 = trace w2 ++ new3 /\ control_calls new3 = []).
  { unfold w3. destruct connected.
    - exists []. rewrite app_nil_r. split; reflexivity.
    - eexists. rewrite trace_logged. split; reflexivity. }
  destruct Htr3 as [new3 [Htr3 Hq3]].
  pose proof (get_upload_band_spec env false w3) as Hspec.
  destruct (get_upload_band env false w3) as [[band|e|] w4] eqn:Hget;
    try discriminate Hexit.
  assert (Hw4 : w4 = after env ReadSignal w3) by (inversion Hspec; reflexivity).
  destruct (eq_str band desired_band) eqn:Heq.
  - cbn [fst snd] in *. inversion Hexit. split; [reflexivity|].
    split.
    { intros fuel'. rewrite (Huniform fuel'). cbv zeta. reflexivity. }
    unfold left_early, entered. cbn [world trace].
    rewrite trace_logged, Hw4, trace_after. split.
    + rewrite Htr3, Htr2, Htr1, !control_calls_app, Hquiet, Hq3.
      cbn [control_calls filter is_control]. rewrite !app_nil_r. reflexivity.
    + eexists. eexists. rewrite <- app_assoc. reflexivity.
  - destruct (main_loop env fuel w4) as [[[]|e|] w5]; discriminate Hexit.
Qed.

Lemma main_early_exit_witness :
  0 = 0 /\
  (forall fuel',
     main (steady (telemetry (Some "28"))) show_clock fuel' p0
     = main (steady (telemetry (Some "28"))) show_clock 3 p0) /\
  control_calls
    (trace (world (snd (main (steady (telemetry (Some "28"))) show_clock 3 p0))))
  = control_calls (trace (world p0)) /\
  exists before stamp,
    trace (world (snd (main (steady (telemetry (Some "28"))) show_clock 3 p0)))
    = before ++ [ReadSignal; Log stamp exiting_msg].
Proof.
  apply (main_early_exit (steady (telemetry (Some "28"))) show_clock 3 p0 0).
  vm_compute. reflexivity.
Defined.



(** X12. With a router that never attaches [main] never ends: whatever the
    number of rounds granted to its loop, the loop is still running after
    them, one corrective unit (mode reset to 4G, data switch off and on) has
    been issued per round, no band call has been made, and the session has
    not been closed. *)
Theorem main_never_ends_without_antenna (env : Env) (str_datetime : Z -> string)
    (fuel : nat) (p : Process) :
  (forall k, band_field (signal env k) = Some None) ->
  exists p',
    main env str_datetime fuel p = (Running, p') /\
    control_calls (trace (world p'))
    = control_calls (trace (world p))
      ++ List.concat
           (repeat [SetNetworkMode "4G"; SetDataSwitchOff; SetDataSwitchOn] fuel) /\
    session p'
    = session p
      ++ [(steps (world p) + 2, Create router_ip);
          (steps (world p) + 3, Login router_login router_password)]%nat.
Proof.
  intros Hnone. destruct p as [w sess]. cbn [world session].
  rewrite main_cases. cbv zeta.
  pose proof (session_opened env w sess) as Hsess.
  pose proof (trace_opened env w sess) as Htr1.
  set (p1 := opened env (mkProcess w sess)) in *.
  destruct (wait_never_attached env 1 (world p1))
    as [w2 [new [Hwait [_ [Htr2 [Hquiet _]]]]]]; [lia|intros k _; apply Hnone|].
  rewrite Hwait.
  rewrite get_upload_band_spec, Hnone. cbn [band_result eq_str].
  set (w4 := after env ReadSignal (logged env not_connected_msg w2)).
  destruct (main_loop_unbounded env corrective_unit
              (round_never_attached env Hnone) fuel w4) as [w5 [Hloop Hcalls]].
  rewrite Hloop. exists (mkProcess w5 (session p1)). cbn [world session].
  split; [reflexivity|]. split; [|exact Hsess].
  rewrite Hcalls. unfold w4. rewrite trace_after, trace_logged, Htr2, Htr1.
  rewrite !control_calls_app, Hquiet.
  cbn [control_calls filter is_control]. rewrite !app_nil_r. reflexivity.
Qed.

Lemma main_never_ends_without_antenna_witness :
  exists p',
    main (steady (telemetry None)) show_clock 2 p0 = (Running, p') /\
    control_calls (trace (world p'))
    = control_calls (trace (world p0))
      ++ List.concat
           (repeat [SetNetworkMode "4G"; SetDataSwitchOff; SetDataSwitchOn] 2) /\
    session p'
    = session p0
      ++ [(steps (world p0) + 2, Create router_ip);
          (steps (world p0) + 3, Login router_login router_password)]%nat.
Proof.
  apply (main_never_ends_without_antenna (steady (telemetry None)) show_clock 2 p0).
  intros k. reflexivity.
Defined.

(** ** Edge cases of the telemetry read and of the timeout *)

Lemma find_first_band (pre post : list Element) (c : Element) :
  (forall x, In x pre -> is_band x = false) ->
  is_band c = true ->
  find is_band (pre ++ c :: post) = Some c.
Proof.
  intros Hpre Hc. induction pre as [|x pre IH]; simpl.
  - rewrite Hc. reflexivity.
  - rewrite (Hpre x (or_introl eq_refl)). apply IH.
    intros y Hy. apply Hpre. right. exact Hy.
Qed.

(** X13. [get_upload_band] answers by the first child of the telemetry
    document whose tag is exactly band: it skips the children before it,
    and ignores the children after it and what that child itself contains,
    be it further band elements. *)
Theorem first_band_child_decides (env : Env) (numerical : bool) (w : World)
    (pre post inside : list Element) (text : option string) :
  el_children (signal env (steps w)) = pre ++ Elem "band" text inside :: post ->
  (forall x, In x pre -> el_tag x <> "band") ->
  fst (get_upload_band env numerical w)
  = match text with
    | Some t => Return (Some (if numerical then t else band_name t))
    | None => Return None
    end.
Proof.
  intros Hdoc Hpre. rewrite get_upload_band_spec. cbn [fst].
  unfold band_field. rewrite Hdoc, find_first_band.
  - destruct text; reflexivity.
  - intros x Hx. unfold is_band. apply String.eqb_neq. apply Hpre. exact Hx.
  - reflexivity.
Qed.

Lemma first_band_child_decides_witness :
  fst (get_upload_band
         (steady (Elem "response" None
                    [Elem "Band" (Some "7") [];
                     Elem "cell" None [Elem "band" (Some "1") []];
                     Elem "band" (Some "28") [Elem "band" (Some "3") []];
                     Elem "band" (Some "20") []]))
         false w0)
  = Return (Some (band_name "28")).
Proof.
  apply (first_band_child_decides _ false w0
           [Elem "Band" (Some "7") []; Elem "cell" None [Elem "band" (Some "1") []]]
           [Elem "band" (Some "20") []] [Elem "band" (Some "3") []] (Some "28")).
  - reflexivity.
  - intros x [H|[H|[]]]; subst x; discriminate.
Defined.


